(** * rest_framework.utils.field_mapping

    A shallow embedding of [rest_framework/utils/field_mapping.py]: the
    helpers that map a Django model field to the dictionary of default
    keyword arguments of its serializer field, and [ClassLookupDict], the
    dictionary that is searched along a class's method resolution order.

    Python dictionaries with string keys are [gmap string _]; classes are
    named by their identifier and carry their linearised ancestors; a raised
    exception is the left summand of [result]. *)

From Stdlib Require Import ZArith Ascii String.
From stdpp Require Import base option list gmap strings fin_maps.

Local Open Scope string_scope.
Local Open Scope list_scope.

(** ** Python values, classes and exceptions *)

(** The scalar values that occur as attributes of a model field. [PyNone]
    also stands for an attribute that is absent where the source reads it
    with [getattr(obj, name, None)], which does not tell the two apart. *)
Inductive pyvalue :=
| PyNone
| PyBool (b : bool)
| PyInt (n : Z)
| PyStr (s : string).

Definition is_not_None (v : pyvalue) : bool :=
  match v with
  | PyNone => false
  | _ => true
  end.

(** A class is named by [cls_name] (its [__name__], and its identity as a
    dictionary key); [cls_ancestors] is the rest of its [__mro__]. *)
Record pyclass := PyClass {
  cls_name : string;
  cls_ancestors : list string
}.

(** [inspect.getmro(cls)]: the class itself, then its ancestors. *)
Definition getmro (cls : pyclass) : list string :=
  cls_name cls :: cls_ancestors cls.

(** [isinstance(obj, C)] for an object whose class is [cls]. *)
Definition isinstance (cls : pyclass) (C : string) : bool :=
  bool_decide (C ∈ getmro cls).

Inductive pyexc :=
| KeyError (args : list string)
| UnboundLocalError (name : string)
| ValueError (msg : string).

Definition result (A : Type) : Type := pyexc + A.

Definition raise {A} (e : pyexc) : result A := inl e.

#[export] Instance result_ret : MRet result := λ A a, inr a.
#[export] Instance result_bind : MBind result := λ A B k r,
  match r with
  | inl e => inl e
  | inr a => k a
  end.

(** [if c: st = f(st)], an [if] statement without [else] acting on the
    variable it assigns. *)
Definition when {A} (c : bool) (f : A → A) (a : A) : A :=
  if c then f a else a.

(** ** ClassLookupDict *)

(** The object used as a key: its [__class__] and, when it has one, its
    [_proxy_class] attribute. *)
Record pyobject := PyObject {
  ob_class : pyclass;
  ob_proxy_class : option pyclass
}.

Section ClassLookupDict.
Context {V : Type}.

Record ClassLookupDict := {
  mapping : gmap string V
}.

(** The [for cls in inspect.getmro(base_class)] loop together with the
    [raise] after it. [cls] is the loop variable as the iterations so far
    left it, [None] while it is unbound; the raise reads it. *)
Fixpoint lookup_mro (self : ClassLookupDict) (cls : option string)
    (mro : list string) : result V :=
  match mro with
  | c :: mro' =>
      match mapping self !! c with
      | Some v => mret v
      | None => lookup_mro self (Some c) mro'
      end
  | [] =>
      match cls with
      | Some c => raise (KeyError ["Class %s not found in lookup."; c])
      | None => raise (UnboundLocalError "cls")
      end
  end.

Definition getitem (self : ClassLookupDict) (key : pyobject) : result V :=
  let base_class :=
    match ob_proxy_class key with
    | Some proxy => proxy
    | None => ob_class key
    end in
  lookup_mro self None (getmro base_class).
End ClassLookupDict.

Arguments ClassLookupDict : clear implicits.

(** ** Strings *)

(** Text is held as its bytes (UTF-8). What the module does to text falls
    in two kinds. Comparing, testing for emptiness, replacing an underscore
    by a space and inserting into a format act on the bytes, and are
    defined here. The case mappings ([str.lower], [str.capitalize] and
    Django's [capfirst]) follow the Unicode character database, which lies
    outside the module: they are the operations of [TextOps], and the
    functions of the module are defined over any such operations. *)
Class TextOps := {
  (** [s.lower()] *)
  lower : string → string;
  (** [s.capitalize()] *)
  capitalize : string → string;
  (** [django.utils.text.capfirst]:
      [lambda x: x and force_text(x)[0].upper() + force_text(x)[1:]] *)
  capfirst : string → string
}.

(** *** The case mappings on ASCII text *)

(** [str.upper] and [str.lower] on one ASCII character. *)
Definition ascii_upper (a : ascii) : ascii :=
  let n := N_of_ascii a in
  if ((97 <=? n) && (n <=? 122))%N then ascii_of_N (n - 32) else a.

Definition ascii_lower (a : ascii) : ascii :=
  let n := N_of_ascii a in
  if ((65 <=? n) && (n <=? 90))%N then ascii_of_N (n + 32) else a.

Fixpoint ascii_lower_string (s : string) : string :=
  match s with
  | EmptyString => EmptyString
  | String a s' => String (ascii_lower a) (ascii_lower_string s')
  end.

(** The first character upper-cased, the rest lowered. *)
Definition ascii_capitalize (s : string) : string :=
  match s with
  | EmptyString => EmptyString
  | String a s' => String (ascii_upper a) (ascii_lower_string s')
  end.

(** The first character upper-cased, the rest as it is. *)
Definition ascii_capfirst (x : string) : string :=
  match x with
  | EmptyString => x
  | String a x' => String (ascii_upper a) x'
  end.

(** Text of ASCII characters only. *)
Fixpoint is_ascii (s : string) : bool :=
  match s with
  | EmptyString => true
  | String a s' => (N_of_ascii a <? 128)%N && is_ascii s'
  end.

(** The operations restricted to what they do on ASCII text; the sample
    inputs below, which are ASCII, are run with them. *)
Definition ascii_text : TextOps :=
  {| lower := ascii_lower_string;
     capitalize := ascii_capitalize;
     capfirst := ascii_capfirst |}.

(** On ASCII text the case mappings are the ASCII ones, whatever they do
    elsewhere. *)
Class AsciiCase (ops : TextOps) : Prop := {
  lower_ascii s : is_ascii s = true → lower s = ascii_lower_string s;
  capitalize_ascii s : is_ascii s = true → capitalize s = ascii_capitalize s;
  capfirst_ascii s : is_ascii s = true → capfirst s = ascii_capfirst s
}.

(** [s.replace(old, new)] for one-character [old] and [new], the way
    [needs_label] calls it. *)
Fixpoint replace (old new : ascii) (s : string) : string :=
  match s with
  | EmptyString => EmptyString
  | String a s' => String (if Ascii.eqb a old then new else a) (replace old new s')
  end.

Definition str_truthy (s : string) : bool :=
  match s with
  | EmptyString => false
  | String _ _ => true
  end.

Definition list_truthy {A} (l : list A) : bool :=
  match l with
  | [] => false
  | _ :: _ => true
  end.

(** [fmt % d] for a dictionary [d] of strings, covering literal text, [%%]
    and the [%(key)s] conversions; any other conversion is refused. The key
    is looked up as soon as its closing parenthesis is read. *)
Inductive format_state :=
| Literal
| Percent
| InKey (key : string)
| Conversion (value : string).

Fixpoint format_from (st : format_state) (fmt : string)
    (d : gmap string string) : result string :=
  match fmt with
  | EmptyString =>
      match st with
      | Literal => mret EmptyString
      | InKey _ => raise (ValueError "incomplete format key")
      | Percent | Conversion _ => raise (ValueError "incomplete format")
      end
  | String a fmt' =>
      match st with
      | Literal =>
          if Ascii.eqb a "%" then format_from Percent fmt' d
          else out ← format_from Literal fmt' d; mret (String a out)
      | Percent =>
          if Ascii.eqb a "(" then format_from (InKey EmptyString) fmt' d
          else if Ascii.eqb a "%" then
            out ← format_from Literal fmt' d; mret (String a out)
          else raise (ValueError "unsupported format character")
      | InKey key =>
          if Ascii.eqb a ")" then
            match d !! key with
            | Some value => format_from (Conversion value) fmt' d
            | None => raise (KeyError [key])
            end
          else format_from (InKey (key +:+ String a EmptyString)) fmt' d
      | Conversion value =>
          if Ascii.eqb a "s" then
            out ← format_from Literal fmt' d; mret (value +:+ out)
          else raise (ValueError "unsupported format character")
      end
  end.

Definition format (fmt : string) (d : gmap string string) : result string :=
  format_from Literal fmt d.

(** ** Models, validators and model fields *)

(** [model._default_manager], an object only passed along. *)
Record Manager := {
  manager_name : string
}.

Record Options := {
  app_label : string;
  object_name : string
}.

Record Model := {
  _meta : Options;
  _default_manager : Manager
}.

(** A validator object. [validate_email] and [validate_slug] are the two
    module-level objects of [django.core.validators] the source compares
    with by identity ([is not]); neither is an instance of a class the
    source tests with [isinstance]. [ValidatorInstance] is any other
    validator, with its class and its [limit_value] attribute.
    [UniqueValidator(queryset=...)] is rest_framework's own class. *)
Inductive validator :=
| validate_email
| validate_slug
| ValidatorInstance (cls : pyclass) (limit_value : pyvalue)
| UniqueValidator (queryset : Manager).

Definition validator_isinstance (v : validator) (C : string) : bool :=
  match v with
  | ValidatorInstance cls _ => isinstance cls C
  | _ => false
  end.

Definition is_validate_email (v : validator) : bool :=
  match v with validate_email => true | _ => false end.

Definition is_validate_slug (v : validator) : bool :=
  match v with validate_slug => true | _ => false end.

(** [next((v.limit_value for v in vs if isinstance(v, C)), None)] *)
Fixpoint next_limit_value (C : string) (vs : list validator) : pyvalue :=
  match vs with
  | [] => PyNone
  | ValidatorInstance cls limit_value :: vs' =>
      if isinstance cls C then limit_value else next_limit_value C vs'
  | _ :: vs' => next_limit_value C vs'
  end.

(** [[v for v in vs if not isinstance(v, C)]] *)
Definition without_instances (C : string) (vs : list validator)
    : list validator :=
  List.filter (λ v, negb (validator_isinstance v C)) vs.

(** The attributes of a model field that the module reads. [max_digits],
    [decimal_places] and [max_length] are read with a [None] default;
    [unique] is the truth value of [getattr(model_field, 'unique', False)];
    [has_default] is the result of the method of that name. *)
Record ModelField := {
  field_class : pyclass;
  verbose_name : string;
  help_text : string;
  max_digits : pyvalue;
  decimal_places : pyvalue;
  editable : bool;
  has_default : bool;
  blank : bool;
  null : bool;
  flatchoices : list (pyvalue * string);
  max_length : pyvalue;
  validators : list validator;
  unique : bool;
  model : Model
}.

(** The values stored in a keyword-argument dictionary. *)
Inductive kwval :=
| KVal (v : pyvalue)
| KField (f : ModelField)
| KDict (d : gmap string string)
| KChoices (choices : list (pyvalue * string))
| KValidators (vs : list validator)
| KManager (m : Manager).

Definition kw_truthy (v : kwval) : bool :=
  match v with
  | KVal PyNone => false
  | KVal (PyBool b) => b
  | KVal (PyInt n) => negb (n =? 0)%Z
  | KVal (PyStr s) => str_truthy s
  | KField _ => true
  | KDict d => negb (bool_decide (d = ∅))
  | KChoices c => list_truthy c
  | KValidators vs => list_truthy vs
  | KManager _ => true
  end.

(** The classes of [django.db.models] and [django.core.validators] that
    the module names. *)
Definition TextField := "TextField".
Definition AutoField := "AutoField".
Definition NullBooleanField := "NullBooleanField".
Definition CharField := "CharField".
Definition URLField := "URLField".
Definition EmailField := "EmailField".
Definition SlugField := "SlugField".
Definition MaxLengthValidator := "MaxLengthValidator".
Definition MinLengthValidator := "MinLengthValidator".
Definition MaxValueValidator := "MaxValueValidator".
Definition MinValueValidator := "MinValueValidator".
Definition URLValidator := "URLValidator".

(** ** The helpers of the module *)

Section Helpers.
Context `{TextOps}.

Definition needs_label (model_field : ModelField) (field_name : string)
    : bool :=
  let default_label := capitalize (replace "_" " " field_name) in
  negb (String.eqb (capfirst (verbose_name model_field)) default_label).

Definition get_detail_view_name (model : Model) : result string :=
  format "%(model_name)s-detail"
    {[ "app_label" := app_label (_meta model);
       "model_name" := lower (object_name (_meta model)) ]}.

Definition get_field_kwargs (field_name : string) (model_field : ModelField)
    : gmap string kwval :=
  let kwargs : gmap string kwval := ∅ in
  let validator_kwarg := validators model_field in

  let kwargs := <["model_field" := KField model_field]> kwargs in

  let kwargs :=
    when (str_truthy (verbose_name model_field)
          && needs_label model_field field_name)
      <["label" := KVal (PyStr (capfirst (verbose_name model_field)))]>
      kwargs in

  let kwargs :=
    when (str_truthy (help_text model_field))
      <["help_text" := KVal (PyStr (help_text model_field))]> kwargs in

  let max_digits := max_digits model_field in
  let kwargs :=
    when (is_not_None max_digits) <["max_digits" := KVal max_digits]>
      kwargs in

  let decimal_places := decimal_places model_field in
  let kwargs :=
    when (is_not_None decimal_places)
      <["decimal_places" := KVal decimal_places]> kwargs in

  let kwargs :=
    when (isinstance (field_class model_field) TextField)
      <["style" := KDict {[ "base_template" := "textarea.html" ]}]>
      kwargs in

  if isinstance (field_class model_field) AutoField
     || negb (editable model_field)
  then
    (* read-only: return early *)
    <["read_only" := KVal (PyBool true)]> kwargs
  else

  let kwargs :=
    when (has_default model_field || blank model_field || null model_field)
      <["required" := KVal (PyBool false)]> kwargs in

  let kwargs :=
    when (null model_field
          && negb (isinstance (field_class model_field) NullBooleanField))
      <["allow_null" := KVal (PyBool true)]> kwargs in

  let kwargs :=
    when (blank model_field) <["allow_blank" := KVal (PyBool true)]>
      kwargs in

  if list_truthy (flatchoices model_field)
  then
    (* choices: return early *)
    <["choices" := KChoices (flatchoices model_field)]> kwargs
  else

  let max_length := max_length model_field in
  (* the condition of the [if] whose body assigns both variables *)
  let has_max_length :=
    is_not_None max_length
    && isinstance (field_class model_field) CharField in
  let kwargs :=
    when has_max_length <["max_length" := KVal max_length]> kwargs in
  let validator_kwarg :=
    when has_max_length (without_instances MaxLengthValidator)
      validator_kwarg in

  let min_length := next_limit_value MinLengthValidator validator_kwarg in
  let kwargs :=
    when (is_not_None min_length) <["min_length" := KVal min_length]>
      kwargs in
  let validator_kwarg :=
    when (is_not_None min_length) (without_instances MinLengthValidator)
      validator_kwarg in

  let max_value := next_limit_value MaxValueValidator validator_kwarg in
  let kwargs :=
    when (is_not_None max_value) <["max_value" := KVal max_value]>
      kwargs in
  let validator_kwarg :=
    when (is_not_None max_value) (without_instances MaxValueValidator)
      validator_kwarg in

  let min_value := next_limit_value MinValueValidator validator_kwarg in
  let kwargs :=
    when (is_not_None min_value) <["min_value" := KVal min_value]>
      kwargs in
  let validator_kwarg :=
    when (is_not_None min_value) (without_instances MinValueValidator)
      validator_kwarg in

  let validator_kwarg :=
    when (isinstance (field_class model_field) URLField)
      (without_instances URLValidator) validator_kwarg in

  let validator_kwarg :=
    when (isinstance (field_class model_field) EmailField)
      (List.filter (λ v, negb (is_validate_email v))) validator_kwarg in

  let validator_kwarg :=
    when (isinstance (field_class model_field) SlugField)
      (List.filter (λ v, negb (is_validate_slug v))) validator_kwarg in

  let validator_kwarg :=
    when (unique model_field)
      (λ vs, vs ++ [UniqueValidator (_default_manager (model model_field))])
      validator_kwarg in

  let kwargs :=
    when (list_truthy validator_kwarg)
      <["validators" := KValidators validator_kwarg]> kwargs in

  kwargs.

(** The validator list as the claim about the ['validators'] key words it:
    what remains of the field's validators after the length and value
    extraction, the URL, email and slug suppression and the uniqueness
    injection. It is compared with [get_field_kwargs] below. *)
Definition remaining_validators (model_field : ModelField) : list validator :=
  let cls := field_class model_field in
  let extract (C : string) (vs : list validator) :=
    when (is_not_None (next_limit_value C vs)) (without_instances C) vs in
  let vs := validators model_field in
  let vs :=
    when (is_not_None (max_length model_field) && isinstance cls CharField)
      (without_instances MaxLengthValidator) vs in
  let vs := extract MinLengthValidator vs in
  let vs := extract MaxValueValidator vs in
  let vs := extract MinValueValidator vs in
  let vs := when (isinstance cls URLField) (without_instances URLValidator) vs in
  let vs :=
    when (isinstance cls EmailField)
      (List.filter (λ v, negb (is_validate_email v))) vs in
  let vs :=
    when (isinstance cls SlugField)
      (List.filter (λ v, negb (is_validate_slug v))) vs in
  when (unique model_field)
    (λ vs, vs ++ [UniqueValidator (_default_manager (model model_field))]) vs.

(** [kwargs.get(key, False)] used as a condition. *)
Definition get_truthy (key : string) (kwargs : gmap string kwval) : bool :=
  match kwargs !! key with
  | Some v => kw_truthy v
  | None => false
  end.

(** [kwargs.get('validators', [])] as the list it is concatenated with;
    the key only ever holds a validator list. *)
Definition get_validators (kwargs : gmap string kwval) : list validator :=
  match kwargs !! "validators" with
  | Some (KValidators vs) => vs
  | _ => []
  end.

(** [kwargs['read_only'] = True; kwargs.pop('queryset', None)] *)
Definition set_read_only (kwargs : gmap string kwval) : gmap string kwval :=
  delete "queryset" (<["read_only" := KVal (PyBool true)]> kwargs).

(** The relation descriptor: the tuple
    [(model_field, related_model, to_many, has_through_model)], whose first
    component may be [None]. *)
Definition RelationInfo : Type := option ModelField * Model * bool * bool.

Definition to_many (relation_info : RelationInfo) : bool :=
  let '(_, _, to_many, _) := relation_info in to_many.

Section Relations.
(** [rest_framework.compat.clean_manytomany_helptext], which lives in
    another module: any function on help texts. *)
Variable clean_manytomany_helptext : string → string.

Definition get_relation_kwargs (field_name : string)
    (relation_info : RelationInfo) : result (gmap string kwval) :=
  let '(model_field, related_model, to_many, has_through_model) :=
    relation_info in
  view_name ← get_detail_view_name related_model;
  let kwargs : gmap string kwval :=
    {[ "queryset" := KManager (_default_manager related_model);
       "view_name" := KVal (PyStr view_name) ]} in

  let kwargs := when to_many <["many" := KVal (PyBool true)]> kwargs in

  let kwargs := when has_through_model set_read_only kwargs in

  match model_field with
  | Some model_field =>
      let kwargs :=
        when (str_truthy (verbose_name model_field)
              && needs_label model_field field_name)
          <["label" := KVal (PyStr (capfirst (verbose_name model_field)))]>
          kwargs in
      let help_text := clean_manytomany_helptext (help_text model_field) in
      let kwargs :=
        when (str_truthy help_text) <["help_text" := KVal (PyStr help_text)]>
          kwargs in
      let kwargs := when (negb (editable model_field)) set_read_only kwargs in
      if get_truthy "read_only" kwargs then
        (* read-only: return early *)
        mret kwargs
      else
      let kwargs :=
        when (has_default model_field || null model_field)
          <["required" := KVal (PyBool false)]> kwargs in
      let kwargs :=
        when (null model_field) <["allow_null" := KVal (PyBool true)]>
          kwargs in
      let kwargs :=
        when (list_truthy (validators model_field))
          <["validators" := KValidators (validators model_field)]>
          kwargs in
      let kwargs :=
        when (unique model_field)
          (λ kw, <["validators" :=
                    KValidators
                      (get_validators kw ++
                       [UniqueValidator
                          (_default_manager (model model_field))])]> kw)
          kwargs in
      mret kwargs
  | None => mret kwargs
  end.
End Relations.

Definition get_nested_relation_kwargs (relation_info : RelationInfo)
    : gmap string kwval :=
  let kwargs : gmap string kwval := {[ "read_only" := KVal (PyBool true) ]} in
  let kwargs :=
    when (to_many relation_info) <["many" := KVal (PyBool true)]> kwargs in
  kwargs.

Definition get_url_kwargs (model_field : Model) : result (gmap string kwval) :=
  view_name ← get_detail_view_name model_field;
  mret {[ "view_name" := KVal (PyStr view_name) ]}.
End Helpers.

(** The class whose method resolution order a lookup searches, as the
    description of [ClassLookupDict] words it: the key's [_proxy_class] when
    it declares one, its class otherwise. *)
Definition lookup_class (key : pyobject) : pyclass :=
  default (ob_class key) (ob_proxy_class key).

(** A class that is not a key of the dictionary. *)
Definition unregistered {V} (self : ClassLookupDict V) (c : string) : Prop :=
  mapping self !! c = None.

(** ** The validator list between the steps of [get_field_kwargs] *)

(** The value of [validator_kwarg] after the [max_length] block, after the
    [min_length] block and after the [max_value] block: the lists the
    [next(...)] expressions of the following blocks run over. *)
Definition extract_limit (C : string) (vs : list validator) : list validator :=
  when (is_not_None (next_limit_value C vs)) (without_instances C) vs.

Definition validators_after_max_length (model_field : ModelField)
    : list validator :=
  when (is_not_None (max_length model_field)
        && isinstance (field_class model_field) CharField)
    (without_instances MaxLengthValidator) (validators model_field).

Definition validators_after_min_length (model_field : ModelField)
    : list validator :=
  extract_limit MinLengthValidator (validators_after_max_length model_field).

Definition validators_after_max_value (model_field : ModelField)
    : list validator :=
  extract_limit MaxValueValidator (validators_after_min_length model_field).

(** [UniqueValidator(queryset=model_field.model._default_manager)] *)
Definition unique_validator (model_field : ModelField) : validator :=
  UniqueValidator (_default_manager (model model_field)).

(** A field for which [get_field_kwargs] takes neither early return. *)
Definition plain (model_field : ModelField) : Prop :=
  editable model_field = true ∧
  isinstance (field_class model_field) AutoField = false ∧
  flatchoices model_field = [].

(** Two mappings with the same entries, the ['label'] apart. *)
Definition same_but_label (kwargs kwargs' : gmap string kwval) : Prop :=
  ∀ k : string, k ≠ "label" → kwargs !! k = kwargs' !! k.

(** The keys that hold a bound taken from a validator, each with the class
    of the validators it is taken from. *)
Definition extracted_bounds : list (string * string) :=
  [("min_length", MinLengthValidator); ("max_value", MaxValueValidator);
   ("min_value", MinValueValidator)].

(** The classes whose instances [get_field_kwargs] may take out of the
    validator list. *)
Definition extracted_classes : list string :=
  [MaxLengthValidator; MinLengthValidator; MaxValueValidator;
   MinValueValidator; URLValidator].

(** ** Sample inputs *)

(** A model, fields of it as Django would build them, and a lookup table,
    on which the functions are run below. *)
Definition Product : Model :=
  {| _meta := {| app_label := "shop"; object_name := "Product" |};
     _default_manager := {| manager_name := "Product.objects" |} |}.

Definition Product_in_catalog : Model :=
  {| _meta := {| app_label := "catalog"; object_name := "Product" |};
     _default_manager := {| manager_name := "Product.objects" |} |}.

Definition field_of (cls : pyclass) (name : string) : ModelField :=
  {| field_class := cls;
     verbose_name := replace "_" " " name;
     help_text := "";
     max_digits := PyNone;
     decimal_places := PyNone;
     editable := true;
     has_default := false;
     blank := false;
     null := false;
     flatchoices := [];
     max_length := PyNone;
     validators := [];
     unique := false;
     model := Product |}.

Definition DateTimeField_class : pyclass :=
  PyClass "DateTimeField" ["DateField"; "Field"; "object"].
Definition CharField_class : pyclass :=
  PyClass CharField ["Field"; "object"].
Definition SlugField_class : pyclass :=
  PyClass SlugField [CharField; "Field"; "object"].
Definition NullBooleanField_class : pyclass :=
  PyClass NullBooleanField ["Field"; "object"].
Definition ForeignKey_class : pyclass :=
  PyClass "ForeignKey" ["RelatedField"; "Field"; "object"].

Definition MaxLengthValidator_of (limit : Z) : validator :=
  ValidatorInstance (PyClass MaxLengthValidator ["BaseValidator"; "object"])
    (PyInt limit).

(** [created = DateTimeField(editable=False, help_text=...)] *)
Definition created_field : ModelField :=
  let f := field_of DateTimeField_class "created" in
  {| field_class := field_class f; verbose_name := verbose_name f;
     help_text := "Set when the product is first saved.";
     max_digits := max_digits f; decimal_places := decimal_places f;
     editable := false;
     has_default := has_default f; blank := blank f; null := null f;
     flatchoices := flatchoices f; max_length := max_length f;
     validators := validators f; unique := unique f; model := model f |}.

(** [title = CharField(max_length=50, unique=True)] *)
Definition title_field : ModelField :=
  let f := field_of CharField_class "title" in
  {| field_class := field_class f; verbose_name := verbose_name f;
     help_text := help_text f;
     max_digits := max_digits f; decimal_places := decimal_places f;
     editable := editable f;
     has_default := has_default f; blank := blank f; null := null f;
     flatchoices := flatchoices f; max_length := PyInt 50;
     validators := [MaxLengthValidator_of 50];
     unique := true; model := model f |}.

(** [status = CharField(max_length=1, choices=...)] *)
Definition status_field : ModelField :=
  let f := field_of CharField_class "status" in
  {| field_class := field_class f; verbose_name := verbose_name f;
     help_text := help_text f;
     max_digits := max_digits f; decimal_places := decimal_places f;
     editable := editable f;
     has_default := has_default f; blank := blank f; null := null f;
     flatchoices := [(PyStr "d", "Draft"); (PyStr "p", "Published")];
     max_length := PyInt 1;
     validators := [MaxLengthValidator_of 1];
     unique := unique f; model := model f |}.

(** [in_stock = NullBooleanField()], which Django builds with
    [null=True, blank=True] *)
Definition in_stock_field : ModelField :=
  let f := field_of NullBooleanField_class "in_stock" in
  {| field_class := field_class f; verbose_name := verbose_name f;
     help_text := help_text f;
     max_digits := max_digits f; decimal_places := decimal_places f;
     editable := editable f;
     has_default := has_default f; blank := true; null := true;
     flatchoices := flatchoices f; max_length := max_length f;
     validators := validators f; unique := unique f; model := model f |}.

(** A table from model field classes to serializer field names, and two
    keys: a slug field, and an object of a class outside the table. *)
Definition field_table : ClassLookupDict string :=
  {| mapping := {[ CharField := "serializers.CharField";
                   "Field" := "serializers.ModelField" ]} |}.

Definition slug_key : pyobject :=
  {| ob_class := SlugField_class; ob_proxy_class := None |}.

Definition manager_key : pyobject :=
  {| ob_class := PyClass "Manager" ["object"]; ob_proxy_class := None |}.

(** [code = SlugField(max_length=20, validators=[MinLengthValidator(3),
    RegexValidator(...)])], to which Django adds the length and slug
    validators *)
Definition RegexValidator_of (pattern : string) : validator :=
  ValidatorInstance (PyClass "RegexValidator" ["object"]) PyNone.

Definition MinLengthValidator_of (limit : Z) : validator :=
  ValidatorInstance (PyClass MinLengthValidator ["BaseValidator"; "object"])
    (PyInt limit).

Definition code_field : ModelField :=
  let f := field_of SlugField_class "code" in
  {| field_class := field_class f; verbose_name := verbose_name f;
     help_text := help_text f;
     max_digits := max_digits f; decimal_places := decimal_places f;
     editable := editable f;
     has_default := has_default f; blank := blank f; null := null f;
     flatchoices := flatchoices f; max_length := PyInt 20;
     validators := [MinLengthValidator_of 3; RegexValidator_of "^[A-Z]";
                    MaxLengthValidator_of 20; validate_slug];
     unique := unique f; model := model f |}.

(** [manual = FileField(max_length=100)], a field with a [max_length] that
    is not a [CharField] *)
Definition manual_field : ModelField :=
  let f := field_of (PyClass "FileField" ["Field"; "object"]) "manual" in
  {| field_class := field_class f; verbose_name := verbose_name f;
     help_text := help_text f;
     max_digits := max_digits f; decimal_places := decimal_places f;
     editable := editable f;
     has_default := has_default f; blank := blank f; null := null f;
     flatchoices := flatchoices f; max_length := PyInt 100;
     validators := [MaxLengthValidator_of 100];
     unique := unique f; model := model f |}.

(** [category = ForeignKey(Category, null=True)] *)
Definition category_field : ModelField :=
  let f := field_of ForeignKey_class "category" in
  {| field_class := field_class f; verbose_name := verbose_name f;
     help_text := help_text f;
     max_digits := max_digits f; decimal_places := decimal_places f;
     editable := editable f;
     has_default := has_default f; blank := blank f; null := true;
     flatchoices := flatchoices f; max_length := max_length f;
     validators := validators f; unique := unique f; model := model f |}.

Definition Category : Model :=
  {| _meta := {| app_label := "shop"; object_name := "Category" |};
     _default_manager := {| manager_name := "Category.objects" |} |}.

(** * Properties *)

(** ** ClassLookupDict *)

Section ClassLookupDictFacts.
Context {V : Type}.
Implicit Types (self : ClassLookupDict V) (mro pre post : list string).

Lemma getitem_lookup_mro self key :
  getitem self key = lookup_mro self None (getmro (lookup_class key)).
Proof.
  unfold getitem, lookup_class. by destruct (ob_proxy_class key).
Qed.

Lemma last_cons_default (c d : string) (l : list string) :
  List.last (c :: l) d = List.last l c.
Proof.
  revert c d. induction l as [|c' l IH]; intros c d; [done|].
  change (List.last (c :: c' :: l) d) with (List.last (c' :: l) d).
  by rewrite (IH c' d), (IH c' c).
Qed.

Lemma lookup_mro_unregistered self cls c mro :
  Forall (unregistered self) (c :: mro) →
  lookup_mro self cls (c :: mro) =
    raise (KeyError ["Class %s not found in lookup."; List.last mro c]).
Proof.
  revert cls c. induction mro as [|c' mro IH]; intros cls c Hall.
  - apply Forall_cons in Hall as [Hc _]. simpl. by rewrite Hc.
  - apply Forall_cons in Hall as [Hc Hall].
    change (lookup_mro self cls (c :: c' :: mro))
      with (match mapping self !! c with
            | Some v => mret v
            | None => lookup_mro self (Some c) (c' :: mro)
            end).
    by rewrite Hc, (IH _ _ Hall), last_cons_default.
Qed.

Lemma lookup_mro_first self cls pre c post v :
  Forall (unregistered self) pre →
  mapping self !! c = Some v →
  lookup_mro self cls (pre ++ c :: post) = mret v.
Proof.
  intros Hpre Hc. revert cls.
  induction Hpre as [|c' pre Hc' _ IH]; intros cls; simpl.
  - by rewrite Hc.
  - by rewrite Hc'.
Qed.

(** Either no class of the order is registered, or there is a first one
    that is. *)
Lemma mro_first_registered self mro :
  Forall (unregistered self) mro ∨
  ∃ pre c post v,
    mro = pre ++ c :: post ∧ Forall (unregistered self) pre ∧
    mapping self !! c = Some v.
Proof.
  induction mro as [|c mro IH]; [by left|].
  destruct (mapping self !! c) as [v|] eqn:Hc.
  - right. by exists [], c, mro, v.
  - destruct IH as [Hall|(pre & c' & post & v & -> & Hpre & Hc')].
    + left. by constructor.
    + right. exists (c :: pre), c', post, v.
      repeat split; [by constructor|done].
Qed.

(** C5: when no class in the method resolution order of the key's class
    (or of its [_proxy_class], when it has one) is registered, indexing
    raises [KeyError]; otherwise it returns the value registered for the
    first class of that order that is registered. *)
Theorem getitem_first_registered_or_KeyError self key :
  (Forall (unregistered self) (getmro (lookup_class key)) →
   ∃ args, getitem self key = raise (KeyError args)) ∧
  (∀ pre c post v,
     getmro (lookup_class key) = pre ++ c :: post →
     Forall (unregistered self) pre →
     mapping self !! c = Some v →
     getitem self key = mret v).
Proof.
  rewrite getitem_lookup_mro. split.
  - intros Hall. eexists. by apply lookup_mro_unregistered.
  - intros pre c post v -> Hpre Hc. by apply lookup_mro_first.
Qed.
End ClassLookupDictFacts.

(** ** Conditional updates of a dictionary *)

Section WhenFacts.
Context {A : Type}.
Implicit Types (m : gmap string A) (k : string) (c : bool).

Lemma lookup_when_insert_ne c k k' v m :
  k ≠ k' → when c <[k:=v]> m !! k' = m !! k'.
Proof. intros Hne. destruct c; [by apply lookup_insert_ne|done]. Qed.

Lemma lookup_when_insert_eq c k v m :
  when c <[k:=v]> m !! k = if c then Some v else m !! k.
Proof. destruct c; [by apply lookup_insert_eq|done]. Qed.

Lemma dom_insert_within k v m (X : gset string) :
  k ∈ X → dom m ⊆ X → dom (<[k:=v]> m) ⊆ X.
Proof.
  intros Hk Hm. rewrite dom_insert_L.
  apply union_least; [by apply singleton_subseteq_l|done].
Qed.

Lemma dom_when_insert_within c k v m (X : gset string) :
  k ∈ X → dom m ⊆ X → dom (when c <[k:=v]> m) ⊆ X.
Proof. destruct c; [apply dom_insert_within|done]. Qed.

Lemma when_Forall {B} (P : B → Prop) c (f : list B → list B) (l : list B) :
  (∀ l', Forall P l' → Forall P (f l')) →
  Forall P l → Forall P (when c f l).
Proof. destruct c; simpl; auto. Qed.

Lemma filter_Forall {B} (P : B → Prop) (p : B → bool) (l : list B) :
  Forall P l → Forall P (List.filter p l).
Proof.
  rewrite !Forall_forall. intros Hall x Hx.
  apply list_elem_of_In, List.filter_In in Hx as [Hx _].
  by apply Hall, list_elem_of_In.
Qed.

Lemma filter_Forall_negb {B} (p : B → bool) (l : list B) :
  Forall (λ x, p x = false) (List.filter (λ x, negb (p x)) l).
Proof.
  rewrite Forall_forall. intros x Hx.
  apply list_elem_of_In, List.filter_In in Hx as [_ Hx].
  by apply negb_true_iff.
Qed.
End WhenFacts.

(** Looks a key up through the assignments of a function's body: an
    assignment to another key is skipped, one to the key itself decides. *)
Ltac kw_lookup :=
  repeat first
    [ rewrite lookup_when_insert_ne by done
    | rewrite lookup_insert_ne by done
    | rewrite lookup_when_insert_eq
    | rewrite lookup_insert_eq
    | rewrite lookup_empty ].

(** ** get_field_kwargs *)

Section FieldKwargs.
Context `{TextOps}.
Implicit Types (field_name : string) (model_field : ModelField).

Lemma needs_label_spec model_field field_name :
  needs_label model_field field_name = true ↔
  capfirst (verbose_name model_field)
    ≠ capitalize (replace "_" " " field_name).
Proof.
  unfold needs_label. rewrite negb_true_iff. apply String.eqb_neq.
Qed.

Lemma str_truthy_spec (s : string) : str_truthy s = true ↔ s ≠ "".
Proof. by destruct s. Qed.

Lemma list_truthy_spec {A} (l : list A) : list_truthy l = true ↔ l ≠ [].
Proof. by destruct l. Qed.

Lemma is_not_None_spec (v : pyvalue) : is_not_None v = true ↔ v ≠ PyNone.
Proof. by destruct v. Qed.

Lemma is_Some_if {A} (c : bool) (x : A) :
  is_Some (if c then Some x else None) ↔ c = true.
Proof. destruct c; [by split; eauto|]. split; [by intros [? ?]|done]. Qed.

Lemma get_field_kwargs_label field_name model_field :
  get_field_kwargs field_name model_field !! "label" =
    if str_truthy (verbose_name model_field)
       && needs_label model_field field_name
    then Some (KVal (PyStr (capfirst (verbose_name model_field))))
    else None.
Proof.
  unfold get_field_kwargs. cbv zeta.
  repeat match goal with |- context [if ?c then <[_:=_]> _ else _] =>
    destruct c end; by kw_lookup.
Qed.

(** C4: the mapping has the key ['label'] exactly when the verbose name is
    non-empty and its [capfirst] form differs from the default label, the
    field name with underscores turned into spaces and capitalised; the
    key then holds the [capfirst] form of the verbose name. *)
Theorem get_field_kwargs_label_iff field_name model_field :
  (is_Some (get_field_kwargs field_name model_field !! "label") ↔
     verbose_name model_field ≠ "" ∧
     capfirst (verbose_name model_field)
       ≠ capitalize (replace "_" " " field_name)) ∧
  (∀ v, get_field_kwargs field_name model_field !! "label" = Some v →
        v = KVal (PyStr (capfirst (verbose_name model_field)))).
Proof.
  rewrite get_field_kwargs_label, <- needs_label_spec, <- str_truthy_spec.
  rewrite <- andb_true_iff.
  destruct (_ && _); split; try split;
    try (intros [? ?]); try done; try congruence; eauto.
Qed.

(** The condition of the first early return. *)
Lemma read_only_cond model_field :
  isinstance (field_class model_field) AutoField = true
  ∨ editable model_field = false →
  isinstance (field_class model_field) AutoField
  || negb (editable model_field) = true.
Proof. intros [-> | ->]; [done|by rewrite orb_true_r]. Qed.

Lemma not_read_only_cond model_field :
  editable model_field = true →
  isinstance (field_class model_field) AutoField = false →
  isinstance (field_class model_field) AutoField
  || negb (editable model_field) = false.
Proof. by intros -> ->. Qed.

(** C1, as the code has it: a field that is an [AutoField] or is not
    editable gets ['read_only'] (true) and ['model_field'], none of the
    keys assigned after the early return, and of the keys assigned before
    it exactly those its verbose name, help text, decimal attributes and
    class call for. *)
Theorem get_field_kwargs_read_only field_name model_field :
  isinstance (field_class model_field) AutoField = true
  ∨ editable model_field = false →
  let kwargs := get_field_kwargs field_name model_field in
  kwargs !! "read_only" = Some (KVal (PyBool true)) ∧
  kwargs !! "model_field" = Some (KField model_field) ∧
  dom kwargs ⊆
    {[ "read_only"; "model_field"; "label"; "help_text"; "max_digits";
       "decimal_places"; "style" ]} ∧
  (is_Some (kwargs !! "help_text") ↔ help_text model_field ≠ "") ∧
  (is_Some (kwargs !! "max_digits") ↔ max_digits model_field ≠ PyNone) ∧
  (is_Some (kwargs !! "decimal_places") ↔
     decimal_places model_field ≠ PyNone) ∧
  (is_Some (kwargs !! "style") ↔
     isinstance (field_class model_field) TextField = true).
Proof.
  intros Hro%read_only_cond kwargs. subst kwargs.
  unfold get_field_kwargs. cbv zeta. rewrite Hro.
  split_and!.
  - by kw_lookup.
  - by kw_lookup.
  - repeat first
      [ apply dom_insert_within; [set_solver|]
      | apply dom_when_insert_within; [set_solver|] ].
    set_solver.
  - kw_lookup. by rewrite is_Some_if, str_truthy_spec.
  - kw_lookup. by rewrite is_Some_if, is_not_None_spec.
  - kw_lookup. by rewrite is_Some_if, is_not_None_spec.
  - kw_lookup. by rewrite is_Some_if.
Qed.

(** The keys assigned after the two early returns are absent when either
    return is taken. *)
Lemma get_field_kwargs_early_return field_name model_field :
  isinstance (field_class model_field) AutoField
  || negb (editable model_field) = true
  ∨ list_truthy (flatchoices model_field) = true →
  let kwargs := get_field_kwargs field_name model_field in
  kwargs !! "max_length" = None ∧ kwargs !! "min_length" = None ∧
  kwargs !! "max_value" = None ∧ kwargs !! "min_value" = None ∧
  kwargs !! "validators" = None.
Proof.
  intros Hearly kwargs. subst kwargs. unfold get_field_kwargs. cbv zeta.
  destruct (_ || negb _); [by split_and!; kw_lookup|].
  destruct Hearly as [?| ->]; [done|]. by split_and!; kw_lookup.
Qed.

Lemma get_field_kwargs_choices field_name model_field :
  get_field_kwargs field_name model_field !! "choices" =
    if isinstance (field_class model_field) AutoField
       || negb (editable model_field)
    then None
    else if list_truthy (flatchoices model_field)
    then Some (KChoices (flatchoices model_field))
    else None.
Proof.
  unfold get_field_kwargs. cbv zeta.
  repeat match goal with |- context [if ?c then <[_:=_]> _ else _] =>
    destruct c end; by kw_lookup.
Qed.

(** C2: ['choices'] never comes with ['max_length'], ['min_length'],
    ['max_value'], ['min_value'] or ['validators']; and an editable field
    that is not an [AutoField] and has choices gets ['choices'] and none of
    those keys. *)
Theorem get_field_kwargs_choices_exclusive field_name model_field :
  let kwargs := get_field_kwargs field_name model_field in
  (is_Some (kwargs !! "choices") →
   kwargs !! "max_length" = None ∧ kwargs !! "min_length" = None ∧
   kwargs !! "max_value" = None ∧ kwargs !! "min_value" = None ∧
   kwargs !! "validators" = None) ∧
  (flatchoices model_field ≠ [] →
   editable model_field = true →
   isinstance (field_class model_field) AutoField = false →
   kwargs !! "choices" = Some (KChoices (flatchoices model_field)) ∧
   kwargs !! "max_length" = None ∧ kwargs !! "min_length" = None ∧
   kwargs !! "max_value" = None ∧ kwargs !! "min_value" = None ∧
   kwargs !! "validators" = None).
Proof.
  intros kwargs. subst kwargs. split.
  - rewrite get_field_kwargs_choices. intros Hsome.
    apply get_field_kwargs_early_return.
    destruct (_ || negb _); [by left|right].
    destruct (list_truthy _); [done|by destruct Hsome].
  - intros Hne%list_truthy_spec Hed Hauto. split.
    + by rewrite get_field_kwargs_choices, not_read_only_cond, Hne.
    + apply get_field_kwargs_early_return. by right.
Qed.

(** Past both early returns the ['validators'] key holds the remaining
    validators, when there are any. *)
Lemma get_field_kwargs_validators field_name model_field :
  isinstance (field_class model_field) AutoField
  || negb (editable model_field) = false →
  list_truthy (flatchoices model_field) = false →
  get_field_kwargs field_name model_field !! "validators" =
    if list_truthy (remaining_validators model_field)
    then Some (KValidators (remaining_validators model_field))
    else None.
Proof.
  intros Hro Hch. unfold get_field_kwargs, remaining_validators. cbv zeta.
  rewrite Hro, Hch. by kw_lookup.
Qed.

Lemma get_field_kwargs_max_length field_name model_field :
  isinstance (field_class model_field) AutoField
  || negb (editable model_field) = false →
  list_truthy (flatchoices model_field) = false →
  get_field_kwargs field_name model_field !! "max_length" =
    if is_not_None (max_length model_field)
       && isinstance (field_class model_field) CharField
    then Some (KVal (max_length model_field))
    else None.
Proof.
  intros Hro Hch. unfold get_field_kwargs. cbv zeta.
  rewrite Hro, Hch. by kw_lookup.
Qed.

(** No step after the first one brings a validator back; the injected
    [UniqueValidator] is of another class. *)
Lemma remaining_validators_no_MaxLengthValidator model_field :
  is_not_None (max_length model_field)
  && isinstance (field_class model_field) CharField = true →
  Forall (λ v, validator_isinstance v MaxLengthValidator = false)
    (remaining_validators model_field).
Proof.
  intros Hmax. unfold remaining_validators. cbv beta zeta. rewrite Hmax.
  do 7 (apply when_Forall;
        [ intros l' Hl';
          first [ by apply filter_Forall
                | apply Forall_app; split; [done|by repeat constructor] ] |]).
  apply filter_Forall_negb.
Qed.

(** C3: an editable [CharField] with [max_length=50] and no choices, not an
    [AutoField], gets ['max_length'] 50, and no validator under
    ['validators'], when the key is there, is a [MaxLengthValidator]. *)
Theorem get_field_kwargs_CharField_max_length field_name model_field :
  editable model_field = true →
  isinstance (field_class model_field) CharField = true →
  max_length model_field = PyInt 50 →
  flatchoices model_field = [] →
  isinstance (field_class model_field) AutoField = false →
  let kwargs := get_field_kwargs field_name model_field in
  kwargs !! "max_length" = Some (KVal (PyInt 50)) ∧
  (∀ vs, kwargs !! "validators" = Some (KValidators vs) →
         Forall (λ v, validator_isinstance v MaxLengthValidator = false) vs).
Proof.
  intros Hed Hchar Hmax Hch Hauto kwargs. subst kwargs.
  pose proof (not_read_only_cond _ Hed Hauto) as Hro.
  assert (list_truthy (flatchoices model_field) = false) as Hch'
    by (by rewrite Hch).
  split.
  - by rewrite get_field_kwargs_max_length, Hmax, Hchar.
  - intros vs. rewrite get_field_kwargs_validators by done.
    destruct (list_truthy (remaining_validators model_field)); [|done].
    intros [= <-].
    apply remaining_validators_no_MaxLengthValidator.
    by rewrite Hmax, Hchar.
Qed.

(** C8: an editable [NullBooleanField] with [null=True], not an
    [AutoField], gets ['required'] false and no ['allow_null']. *)
Theorem get_field_kwargs_NullBooleanField field_name model_field :
  editable model_field = true →
  isinstance (field_class model_field) AutoField = false →
  isinstance (field_class model_field) NullBooleanField = true →
  null model_field = true →
  let kwargs := get_field_kwargs field_name model_field in
  kwargs !! "required" = Some (KVal (PyBool false)) ∧
  kwargs !! "allow_null" = None.
Proof.
  intros Hed Hauto Hnb Hnull kwargs. subst kwargs.
  unfold get_field_kwargs. cbv zeta.
  rewrite (not_read_only_cond _ Hed Hauto), Hnull, Hnb, orb_true_r.
  destruct (list_truthy (flatchoices model_field)); by split; kw_lookup.
Qed.

(** C10: the ['validators'] key never holds an empty list; and for an
    editable field without choices that is not an [AutoField] the key is
    there exactly when validators remain, and holds them. *)
Theorem get_field_kwargs_validators_iff field_name model_field :
  let kwargs := get_field_kwargs field_name model_field in
  kwargs !! "validators" ≠ Some (KValidators []) ∧
  (editable model_field = true →
   isinstance (field_class model_field) AutoField = false →
   flatchoices model_field = [] →
   (is_Some (kwargs !! "validators") ↔ remaining_validators model_field ≠ []) ∧
   (∀ v, kwargs !! "validators" = Some v →
         v = KValidators (remaining_validators model_field))).
Proof.
  intros kwargs. subst kwargs. split.
  - destruct (isinstance (field_class model_field) AutoField
              || negb (editable model_field)) eqn:Hro.
    { by destruct (get_field_kwargs_early_return field_name model_field)
        as (_ & _ & _ & _ & ->); [left|]. }
    destruct (list_truthy (flatchoices model_field)) eqn:Hch.
    { by destruct (get_field_kwargs_early_return field_name model_field)
        as (_ & _ & _ & _ & ->); [right|]. }
    rewrite get_field_kwargs_validators by done.
    by destruct (remaining_validators model_field).
  - intros Hed Hauto Hch.
    rewrite get_field_kwargs_validators
      by (by rewrite ?Hch; auto using not_read_only_cond).
    rewrite is_Some_if, list_truthy_spec. split; [done|].
    intros v. destruct (list_truthy _); congruence.
Qed.
End FieldKwargs.

(** ** get_detail_view_name *)

Section DetailViewName.
Context `{TextOps}.

Lemma format_model_name_detail (d : gmap string string) (value : string) :
  d !! "model_name" = Some value →
  format "%(model_name)s-detail" d = mret (value +:+ "-detail").
Proof.
  intros Hd. unfold format. simpl.
  match goal with |- context [d !! ?key] =>
    let key' := eval vm_compute in key in change key with key'
  end.
  by rewrite Hd.
Qed.

Lemma get_detail_view_name_returns (model : Model) :
  get_detail_view_name model =
    mret (lower (object_name (_meta model)) +:+ "-detail").
Proof.
  unfold get_detail_view_name. apply format_model_name_detail.
  by rewrite lookup_insert_ne, lookup_singleton_eq.
Qed.

(** C6, as the code has it: nothing is raised, and the name is the lowered
    type name followed by [-detail]. The app label is handed to the
    formatting, but the format string does not refer to it: models of the
    same type name get the same view name whatever their app labels. *)
Theorem get_detail_view_name_model_name (model : Model) :
  get_detail_view_name model =
    mret (lower (object_name (_meta model)) +:+ "-detail") ∧
  (∀ model' : Model,
     object_name (_meta model') = object_name (_meta model) →
     get_detail_view_name model' = get_detail_view_name model).
Proof.
  split; [apply get_detail_view_name_returns|].
  intros model' Hname. by rewrite !get_detail_view_name_returns, Hname.
Qed.

End DetailViewName.

(** ** get_relation_kwargs *)

Section RelationKwargs.
Context `{TextOps}.
Variable clean_manytomany_helptext : string → string.
Implicit Types (kwargs : gmap string kwval) (model_field : ModelField).

Lemma lookup_set_read_only_ne kwargs (k : string) :
  k ≠ "read_only" → k ≠ "queryset" →
  set_read_only kwargs !! k = kwargs !! k.
Proof.
  intros Hro Hqs. unfold set_read_only.
  by rewrite lookup_delete_ne, lookup_insert_ne.
Qed.

Lemma lookup_set_read_only kwargs :
  set_read_only kwargs !! "read_only" = Some (KVal (PyBool true)).
Proof.
  unfold set_read_only. by rewrite lookup_delete_ne, lookup_insert_eq.
Qed.

Lemma lookup_set_read_only_queryset kwargs :
  set_read_only kwargs !! "queryset" = None.
Proof. unfold set_read_only. by rewrite lookup_delete_eq. Qed.

Lemma lookup_when_ne {A} (c : bool) (f : gmap string A → gmap string A)
    (m : gmap string A) (k : string) :
  (∀ m', f m' !! k = m' !! k) → when c f m !! k = m !! k.
Proof. intros Hf. destruct c; [apply Hf|done]. Qed.

Lemma lookup_when_set_read_only (c : bool) kwargs :
  when c set_read_only kwargs !! "read_only" =
    if c then Some (KVal (PyBool true)) else kwargs !! "read_only".
Proof. destruct c; [apply lookup_set_read_only|done]. Qed.

Lemma lookup_when_set_read_only_queryset (c : bool) kwargs :
  when c set_read_only kwargs !! "queryset" =
    if c then None else kwargs !! "queryset".
Proof. destruct c; [apply lookup_set_read_only_queryset|done]. Qed.

(** The dictionary with which [get_relation_kwargs] reaches its read-only
    test, or its end when there is no model field. *)
Ltac relation_lookup :=
  repeat first
    [ rewrite lookup_when_insert_ne by done
    | rewrite lookup_insert_ne by done
    | rewrite lookup_when_set_read_only
    | rewrite lookup_when_set_read_only_queryset
    | rewrite lookup_when_ne
        by (intros; first [ by apply lookup_set_read_only_ne
                          | by apply lookup_insert_ne ])
    | rewrite lookup_when_insert_eq
    | rewrite lookup_insert_eq
    | rewrite lookup_singleton_eq
    | rewrite lookup_singleton_ne by done
    | rewrite lookup_empty ].

(** C7: with a through model, or with a model field that is not editable,
    the mapping has ['read_only'] true and no ['queryset'], and none of
    ['required'], ['allow_null'] and ['validators']. *)
Theorem get_relation_kwargs_read_only field_name
    (model_field : option ModelField) (related_model : Model)
    (to_many has_through_model : bool) :
  has_through_model = true
  ∨ (∃ f, model_field = Some f ∧ editable f = false) →
  ∃ kwargs,
    get_relation_kwargs clean_manytomany_helptext field_name
      (model_field, related_model, to_many, has_through_model)
      = mret kwargs ∧
    kwargs !! "read_only" = Some (KVal (PyBool true)) ∧
    kwargs !! "queryset" = None ∧
    kwargs !! "required" = None ∧
    kwargs !! "allow_null" = None ∧
    kwargs !! "validators" = None.
Proof.
  intros Hro. unfold get_relation_kwargs.
  rewrite get_detail_view_name_returns. simpl. cbv zeta.
  destruct model_field as [f|].
  - assert (negb (editable f) || has_through_model = true) as Hc.
    { destruct Hro as [->|(? & [= <-] & ->)]; [apply orb_true_r|done]. }
    assert (∀ kw : gmap string kwval,
              kw !! "read_only" = Some (KVal (PyBool true)) →
              get_truthy "read_only" kw = true) as Htruthy.
    { intros kw Hkw. unfold get_truthy. by rewrite Hkw. }
    rewrite Htruthy.
    + eexists. split; [done|].
      split_and!; relation_lookup;
        by destruct (editable f), has_through_model.
    + relation_lookup. by destruct (editable f), has_through_model.
  - destruct Hro as [->|(? & [=] & _)].
    eexists. split; [done|]. by split_and!; relation_lookup.
Qed.

(** C9: the mapping always has ['view_name'], and never both ['queryset']
    and ['read_only']. *)
Theorem get_relation_kwargs_view_name field_name
    (relation_info : RelationInfo) :
  ∃ kwargs,
    get_relation_kwargs clean_manytomany_helptext field_name relation_info
      = mret kwargs ∧
    is_Some (kwargs !! "view_name") ∧
    ¬ (is_Some (kwargs !! "queryset") ∧ is_Some (kwargs !! "read_only")).
Proof.
  destruct relation_info as [[[model_field related_model] many] through].
  unfold get_relation_kwargs.
  rewrite get_detail_view_name_returns. simpl. cbv zeta.
  destruct model_field as [f|].
  - destruct (get_truthy "read_only" _) eqn:Htruthy.
    + eexists. split; [done|]. split; [by relation_lookup; eauto|].
      relation_lookup.
      destruct (editable f), through; simpl; by intros [[? ?] [? ?]].
    + eexists. split; [done|]. split; [by relation_lookup; eauto|].
      revert Htruthy. unfold get_truthy. relation_lookup.
      destruct (editable f), through; simpl; try done.
      by intros _ [_ [? ?]].
  - eexists. split; [done|]. split; [by relation_lookup; eauto|].
    relation_lookup. destruct through; by intros [[? ?] [? ?]].
Qed.
End RelationKwargs.

(** * The functions on the sample inputs *)

Section SampleRuns.
#[local] Existing Instance ascii_text.

Example getitem_slug_key :
  getitem field_table slug_key = mret "serializers.CharField".
Proof. reflexivity. Qed.

Example getitem_manager_key :
  getitem field_table manager_key =
    raise (KeyError ["Class %s not found in lookup."; "object"]).
Proof. reflexivity. Qed.

Example needs_label_created :
  needs_label created_field "created" = false.
Proof. reflexivity. Qed.

Example get_detail_view_name_Product :
  get_detail_view_name Product = mret "product-detail".
Proof. reflexivity. Qed.

Example get_field_kwargs_title_keys :
  dom (get_field_kwargs "title" title_field)
    = {[ "model_field"; "max_length"; "validators" ]}.
Proof. by vm_compute. Qed.

Example get_field_kwargs_title_validators :
  get_field_kwargs "title" title_field !! "validators" =
    Some (KValidators [UniqueValidator (_default_manager Product)]).
Proof. by vm_compute. Qed.

Example get_field_kwargs_status_keys :
  dom (get_field_kwargs "status" status_field)
    = {[ "model_field"; "choices" ]}.
Proof. by vm_compute. Qed.

Example get_field_kwargs_created_keys :
  dom (get_field_kwargs "created" created_field)
    = {[ "model_field"; "help_text"; "read_only" ]}.
Proof. by vm_compute. Qed.

(** ** The theorems at the sample inputs *)

(** The slug field's class is not in the table, its base class
    [CharField] is, and is the first such class. *)
Lemma getitem_first_registered_or_KeyError_witness :
  (∃ args, getitem field_table manager_key = raise (KeyError args)) ∧
  getitem field_table slug_key = mret "serializers.CharField".
Proof.
  split.
  - apply (getitem_first_registered_or_KeyError field_table manager_key).
    vm_compute. repeat constructor.
  - apply (proj2 (getitem_first_registered_or_KeyError field_table slug_key)
             [SlugField] CharField ["Field"; "object"]).
    + reflexivity.
    + vm_compute. repeat constructor.
    + reflexivity.
Defined.

(** A field that is not editable and has a help text: its mapping has the
    key ['help_text'] besides ['read_only'] and ['model_field']. *)
Lemma get_field_kwargs_read_only_only_counterexample :
  ¬ (editable created_field = false →
     ∀ k, is_Some (get_field_kwargs "created" created_field !! k) →
          k = "read_only" ∨ k = "model_field").
Proof.
  intros Hclaim.
  destruct (Hclaim eq_refl "help_text") as [Hk|Hk]; [|done..].
  vm_compute. eauto.
Qed.

Lemma get_field_kwargs_read_only_witness :
  editable created_field = false ∧
  get_field_kwargs "created" created_field !! "read_only"
    = Some (KVal (PyBool true)).
Proof.
  split; [reflexivity|].
  apply (get_field_kwargs_read_only "created" created_field).
  right. reflexivity.
Defined.

Lemma get_field_kwargs_choices_exclusive_witness :
  flatchoices status_field ≠ [] ∧
  get_field_kwargs "status" status_field !! "choices"
    = Some (KChoices (flatchoices status_field)) ∧
  get_field_kwargs "status" status_field !! "max_length" = None.
Proof.
  split; [discriminate|].
  destruct (proj2 (get_field_kwargs_choices_exclusive "status" status_field))
    as (Hchoices & Hmax & _).
  - discriminate.
  - reflexivity.
  - reflexivity.
  - exact (conj Hchoices Hmax).
Defined.

Lemma get_field_kwargs_CharField_max_length_witness :
  isinstance (field_class title_field) CharField = true ∧
  max_length title_field = PyInt 50 ∧
  get_field_kwargs "title" title_field !! "max_length"
    = Some (KVal (PyInt 50)).
Proof.
  split; [reflexivity|]. split; [reflexivity|].
  apply (get_field_kwargs_CharField_max_length "title" title_field);
    reflexivity.
Defined.

Lemma get_field_kwargs_NullBooleanField_witness :
  null in_stock_field = true ∧
  get_field_kwargs "in_stock" in_stock_field !! "allow_null" = None.
Proof.
  split; [reflexivity|].
  apply (get_field_kwargs_NullBooleanField "in_stock" in_stock_field);
    reflexivity.
Defined.

Lemma get_field_kwargs_validators_iff_witness :
  flatchoices title_field = [] ∧
  (is_Some (get_field_kwargs "title" title_field !! "validators") ↔
   remaining_validators title_field ≠ []).
Proof.
  split; [reflexivity|].
  apply (proj2 (get_field_kwargs_validators_iff "title" title_field));
    reflexivity.
Defined.

(** Two models of the same name in different apps get the same view name:
    the app label is no part of it. *)
Lemma get_detail_view_name_app_label_counterexample :
  app_label (_meta Product) ≠ app_label (_meta Product_in_catalog) ∧
  get_detail_view_name Product = mret "product-detail" ∧
  get_detail_view_name Product_in_catalog = mret "product-detail".
Proof. split; [discriminate|]. split; reflexivity. Qed.

(** A many-to-many relation through an explicit model, without the
    model field. *)
Lemma get_relation_kwargs_read_only_witness :
  ∃ kwargs,
    get_relation_kwargs (λ text, text) "categories"
      (None, Product, true, true) = mret kwargs ∧
    kwargs !! "read_only" = Some (KVal (PyBool true)) ∧
    kwargs !! "queryset" = None.
Proof.
  destruct (get_relation_kwargs_read_only (λ text, text) "categories"
              None Product true true) as (kwargs & Heq & Hro & Hqs & _).
  - left. reflexivity.
  - exists kwargs. exact (conj Heq (conj Hro Hqs)).
Defined.

Lemma get_detail_view_name_model_name_witness :
  object_name (_meta Product_in_catalog) = object_name (_meta Product) ∧
  get_detail_view_name Product_in_catalog = get_detail_view_name Product.
Proof.
  split; [reflexivity|].
  apply (proj2 (get_detail_view_name_model_name Product) Product_in_catalog).
  reflexivity.
Defined.

End SampleRuns.

(** * Further properties *)

(** ** ClassLookupDict: errors, registration and inheritance *)

Section ClassLookupDictMore.
Context {V : Type}.
Implicit Types (self : ClassLookupDict V) (mro : list string).

(** X1: when nothing is registered for the key, the [KeyError] carries the
    message, not interpolated, and the name of the last class of the method
    resolution order, the root of the hierarchy rather than the class of the
    key. *)
Theorem getitem_unregistered_names_last_class self key :
  Forall (unregistered self) (getmro (lookup_class key)) →
  getitem self key =
    raise (KeyError ["Class %s not found in lookup.";
                     List.last (cls_ancestors (lookup_class key))
                               (cls_name (lookup_class key))]).
Proof.
  intros Hall. rewrite getitem_lookup_mro. by apply lookup_mro_unregistered.
Qed.

(** X2: A lookup raises nothing but [KeyError], and a value it returns is the
    value registered for a class of the method resolution order. *)
Theorem getitem_KeyError_or_registered self key :
  (∃ args, getitem self key = raise (KeyError args)) ∨
  (∃ c v, c ∈ getmro (lookup_class key) ∧ mapping self !! c = Some v ∧
          getitem self key = mret v).
Proof.
  rewrite getitem_lookup_mro.
  destruct (mro_first_registered self (getmro (lookup_class key)))
    as [Hall|(pre & c & post & v & Hmro & Hpre & Hc)].
  - left. eexists. by apply lookup_mro_unregistered.
  - right. exists c, v. rewrite Hmro. split_and!; [|done|].
    + apply elem_of_app. right. by left.
    + by apply lookup_mro_first.
Qed.

Lemma lookup_mro_agree self self' cls mro :
  Forall (λ c, mapping self !! c = mapping self' !! c) mro →
  lookup_mro self cls mro = lookup_mro self' cls mro.
Proof.
  intros Hall. revert cls.
  induction Hall as [|c mro Hc _ IH]; intros cls; simpl; [done|].
  rewrite Hc. destruct (mapping self' !! c); [done|apply IH].
Qed.

(** X3: only the classes of the method resolution order matter: two tables that
    agree on them answer alike, so registering or removing any other class
    leaves the lookup as it was. *)
Theorem getitem_agree_on_mro self self' key :
  Forall (λ c, mapping self !! c = mapping self' !! c)
    (getmro (lookup_class key)) →
  getitem self key = getitem self' key.
Proof. rewrite !getitem_lookup_mro. apply lookup_mro_agree. Qed.

(** X4: A value registered for the class of the key itself is the one found,
    whatever is registered for its ancestors. *)
Theorem getitem_insert_own_class self key (v : V) :
  getitem {| mapping := <[cls_name (lookup_class key) := v]> (mapping self) |}
    key = mret v.
Proof.
  rewrite getitem_lookup_mro. unfold getmro. simpl.
  by rewrite lookup_insert_eq.
Qed.

(** X5: single inheritance: when the method resolution order of the class
    of a key is that class followed by the method resolution order of its
    parent, and the class is not registered, the key is looked up as an
    object of the parent is, the error included. With several bases the
    order of the class is not of this form, and the two lookups can
    differ. *)
Theorem getitem_inherits self (key parent_key : pyobject) :
  unregistered self (cls_name (lookup_class key)) →
  cls_ancestors (lookup_class key) = getmro (lookup_class parent_key) →
  getitem self key = getitem self parent_key.
Proof.
  intros Hc Hmro. rewrite !getitem_lookup_mro.
  unfold getmro at 1. rewrite Hmro. simpl. by rewrite Hc.
Qed.
End ClassLookupDictMore.

(** ** Labels and view names *)

Section Naming.
Context `{ops : TextOps}.
Implicit Types (s t : string) (a : ascii).

Lemma String_app_cons a s t : String a s +:+ t = String a (s +:+ t).
Proof. done. Qed.

Lemma list_ascii_of_string_app s t :
  list_ascii_of_string (s +:+ t)
    = list_ascii_of_string s ++ list_ascii_of_string t.
Proof.
  induction s as [|a s IH]; [done|].
  rewrite String_app_cons. simpl. by rewrite IH.
Qed.

Lemma String_app_inv_tail s1 s2 t : s1 +:+ t = s2 +:+ t → s1 = s2.
Proof.
  intros Heq%(f_equal list_ascii_of_string).
  rewrite !list_ascii_of_string_app in Heq. apply app_inv_tail in Heq.
  by rewrite <- (string_of_list_ascii_of_string s1),
             <- (string_of_list_ascii_of_string s2), Heq.
Qed.

(** X6: two models get the same detail view name exactly when [lower]
    gives the same for their type names; the app label plays no part. *)
Theorem get_detail_view_name_eq_iff (model model' : Model) :
  get_detail_view_name model = get_detail_view_name model' ↔
  lower (object_name (_meta model)) = lower (object_name (_meta model')).
Proof.
  rewrite !get_detail_view_name_returns. split.
  - intros [= Heq]. by apply String_app_inv_tail in Heq.
  - by intros ->.
Qed.

(** *** Field names in ASCII *)

(** Underscores and spaces have no case. *)
Lemma ascii_lower_underscore a :
  (if Ascii.eqb (ascii_lower a) "_" then " "%char else ascii_lower a)
  = ascii_lower (if Ascii.eqb a "_" then " "%char else a).
Proof. by destruct a as [[] [] [] [] [] [] [] []]. Qed.

Lemma ascii_lower_fixed_underscore a :
  (if Ascii.eqb a "_" then " "%char else a)
  = ascii_lower (if Ascii.eqb a "_" then " "%char else a) →
  ascii_lower a = a.
Proof.
  destruct a as [[] [] [] [] [] [] [] []]; vm_compute; congruence.
Qed.

Lemma ascii_lower_string_replace s :
  replace "_" " " (ascii_lower_string s)
    = ascii_lower_string (replace "_" " " s).
Proof.
  induction s as [|a s IH]; [done|]. simpl.
  by rewrite IH, ascii_lower_underscore.
Qed.

Lemma ascii_lower_string_replace_fixed s :
  replace "_" " " s = ascii_lower_string (replace "_" " " s) ↔
  ascii_lower_string s = s.
Proof.
  split.
  - induction s as [|a s IH]; [done|]. simpl. intros [= Ha Hs].
    rewrite (IH Hs). f_equal. by apply ascii_lower_fixed_underscore.
  - intros Hs. by rewrite <- ascii_lower_string_replace, Hs.
Qed.

Lemma is_ascii_replace s :
  is_ascii s = true → is_ascii (replace "_" " " s) = true.
Proof.
  induction s as [|a s IH]; [done|]. simpl.
  intros [Ha Hs]%andb_true_iff. rewrite (IH Hs), andb_true_r.
  by destruct (Ascii.eqb a "_").
Qed.

(** Capitalising changes an ASCII name after its first letter exactly when
    it does so for the name with its underscores turned into spaces. *)
Lemma ascii_capitalize_replace s :
  ascii_capfirst (replace "_" " " s) = ascii_capitalize (replace "_" " " s) ↔
  ascii_capitalize s = ascii_capfirst s.
Proof.
  destruct s as [|a s]; [done|]. simpl. split.
  - intros [= Hs]. by apply ascii_lower_string_replace_fixed in Hs as ->.
  - intros [= Hs]. by apply ascii_lower_string_replace_fixed in Hs as <-.
Qed.

Context `{!AsciiCase ops}.

(** X7: for an ASCII field name and the verbose name Django derives from it
    (underscores turned into spaces), no label is needed exactly when
    capitalising the field name changes its first letter at most, that is
    when no letter after the first is in upper case. *)
Theorem needs_label_default_verbose_name model_field field_name :
  is_ascii field_name = true →
  verbose_name model_field = replace "_" " " field_name →
  needs_label model_field field_name = false ↔
  capitalize field_name = capfirst field_name.
Proof.
  intros Hascii Hvn. unfold needs_label. cbv zeta.
  rewrite Hvn, negb_false_iff, String.eqb_eq.
  rewrite (capfirst_ascii (replace "_" " " field_name)),
    (capitalize_ascii (replace "_" " " field_name)),
    (capitalize_ascii field_name), (capfirst_ascii field_name)
    by auto using is_ascii_replace.
  apply ascii_capitalize_replace.
Qed.

(** Without the characterisation: an ASCII name that lowering leaves as it
    is needs no label. *)
Lemma needs_label_lower_case model_field field_name :
  is_ascii field_name = true →
  verbose_name model_field = replace "_" " " field_name →
  lower field_name = field_name →
  needs_label model_field field_name = false.
Proof.
  intros Hascii Hvn Hlow. rewrite lower_ascii in Hlow by done.
  unfold needs_label. cbv zeta.
  rewrite Hvn, negb_false_iff, String.eqb_eq.
  rewrite capfirst_ascii, capitalize_ascii by auto using is_ascii_replace.
  apply ascii_capitalize_replace.
  destruct field_name as [|a s]; [done|]. simpl.
  by injection Hlow as _ ->.
Qed.

(** X8: so an ASCII field name written in lower case, with the verbose name
    derived from it, gets no ['label']. *)
Theorem get_field_kwargs_no_label field_name model_field :
  is_ascii field_name = true →
  verbose_name model_field = replace "_" " " field_name →
  lower field_name = field_name →
  get_field_kwargs field_name model_field !! "label" = None.
Proof.
  intros Hascii Hvn Hlow. rewrite get_field_kwargs_label.
  by rewrite (needs_label_lower_case _ _ Hascii Hvn Hlow), andb_false_r.
Qed.
End Naming.

(** ** get_field_kwargs: the keys of every field *)

Section FieldKwargsMore.
Context `{TextOps}.
Implicit Types (field_name : string) (model_field : ModelField).
Implicit Types (vs : list validator) (v : validator).

Lemma lookup_insert_congr {A} (m1 m2 : gmap string A) (k k' : string) x :
  m1 !! k = m2 !! k → <[k':=x]> m1 !! k = <[k':=x]> m2 !! k.
Proof. intros Hm. rewrite !lookup_insert. by case_decide. Qed.

Lemma lookup_when_insert_congr {A} (m1 m2 : gmap string A) (c : bool)
    (k k' : string) x :
  m1 !! k = m2 !! k → when c <[k':=x]> m1 !! k = when c <[k':=x]> m2 !! k.
Proof. destruct c; [apply lookup_insert_congr|done]. Qed.

(** X9: whatever the field, the mapping has the field itself under
    ['model_field'], its keys are among the sixteen the function knows, and
    ['read_only'] is among them exactly for an [AutoField] or a field that
    is not editable. *)
Theorem get_field_kwargs_keys field_name model_field :
  let kwargs := get_field_kwargs field_name model_field in
  kwargs !! "model_field" = Some (KField model_field) ∧
  dom kwargs ⊆
    {[ "model_field"; "label"; "help_text"; "max_digits"; "decimal_places";
       "style"; "read_only"; "required"; "allow_null"; "allow_blank";
       "choices"; "max_length"; "min_length"; "max_value"; "min_value";
       "validators" ]} ∧
  (is_Some (kwargs !! "read_only") ↔
     isinstance (field_class model_field) AutoField = true
     ∨ editable model_field = false).
Proof.
  intros kwargs. subst kwargs. unfold get_field_kwargs. cbv zeta.
  rewrite <- (negb_true_iff (editable model_field)), <- orb_true_iff.
  destruct (_ || negb _); [|destruct (list_truthy (flatchoices _))].
  all: split_and!;
    [ by kw_lookup
    | repeat first
        [ apply dom_insert_within; [set_solver|]
        | apply dom_when_insert_within; [set_solver|] ];
      set_solver
    | kw_lookup;
      first [ by split; eauto | by split; [intros [? ?]|] ] ].
Qed.

(** X10: the keys assigned before the first early return are there for every
    field, read-only or not, with or without choices. *)
Theorem get_field_kwargs_leading_keys field_name model_field :
  let kwargs := get_field_kwargs field_name model_field in
  kwargs !! "help_text" =
    (if str_truthy (help_text model_field)
     then Some (KVal (PyStr (help_text model_field))) else None) ∧
  kwargs !! "max_digits" =
    (if is_not_None (max_digits model_field)
     then Some (KVal (max_digits model_field)) else None) ∧
  kwargs !! "decimal_places" =
    (if is_not_None (decimal_places model_field)
     then Some (KVal (decimal_places model_field)) else None) ∧
  kwargs !! "style" =
    (if isinstance (field_class model_field) TextField
     then Some (KDict {[ "base_template" := "textarea.html" ]}) else None).
Proof.
  intros kwargs. subst kwargs. unfold get_field_kwargs. cbv zeta.
  destruct (_ || negb _); [|destruct (list_truthy (flatchoices _))].
  all: by split_and!; kw_lookup.
Qed.

(** X11: an editable field that is not an [AutoField] is not required as soon as
    it has a default, may be blank or may be null; it allows null when it
    may be null, unless it is a [NullBooleanField]; it allows blank when it
    may be blank. This holds with and without choices, and ['required'] is
    never set to true. *)
Theorem get_field_kwargs_flags field_name model_field :
  editable model_field = true →
  isinstance (field_class model_field) AutoField = false →
  let kwargs := get_field_kwargs field_name model_field in
  kwargs !! "read_only" = None ∧
  kwargs !! "required" =
    (if has_default model_field || blank model_field || null model_field
     then Some (KVal (PyBool false)) else None) ∧
  kwargs !! "allow_null" =
    (if null model_field
        && negb (isinstance (field_class model_field) NullBooleanField)
     then Some (KVal (PyBool true)) else None) ∧
  kwargs !! "allow_blank" =
    (if blank model_field then Some (KVal (PyBool true)) else None).
Proof.
  intros Hed Hauto kwargs. subst kwargs. unfold get_field_kwargs. cbv zeta.
  rewrite (not_read_only_cond _ Hed Hauto).
  destruct (list_truthy (flatchoices _)); by split_and!; kw_lookup.
Qed.

(** X12: the field name only decides the label: every other key is the same
    under any two field names. *)
Theorem get_field_kwargs_field_name field_name field_name' model_field
    (k : string) :
  k ≠ "label" →
  get_field_kwargs field_name model_field !! k
    = get_field_kwargs field_name' model_field !! k.
Proof.
  intros Hk. unfold get_field_kwargs. cbv zeta.
  destruct (_ || negb _); [|destruct (list_truthy (flatchoices _))].
  all: repeat first
         [ apply lookup_insert_congr | apply lookup_when_insert_congr ];
       by rewrite !lookup_when_insert_ne.
Qed.
End FieldKwargsMore.

(** ** get_field_kwargs: what happens to the validators *)

Section ValidatorsMore.
Context `{TextOps}.
Implicit Types (field_name : string) (model_field : ModelField).
Implicit Types (vs : list validator) (v : validator) (C : string).

Lemma plain_conds model_field :
  plain model_field →
  isinstance (field_class model_field) AutoField
  || negb (editable model_field) = false ∧
  list_truthy (flatchoices model_field) = false.
Proof. by intros (-> & -> & ->). Qed.

Lemma filter_sublist {B} (p : B → bool) (l : list B) :
  List.filter p l `sublist_of` l.
Proof.
  induction l as [|x l IH]; simpl; [constructor|].
  destruct (p x); [by apply sublist_skip|by apply sublist_cons].
Qed.

Lemma without_instances_sublist C vs : without_instances C vs `sublist_of` vs.
Proof. apply filter_sublist. Qed.

Lemma when_sublist {B} (c : bool) (f : list B → list B) (l k : list B) :
  (∀ l', f l' `sublist_of` l') → l `sublist_of` k → when c f l `sublist_of` k.
Proof.
  intros Hf Hl. destruct c; simpl; [|done]. by trans l; [apply Hf|].
Qed.

Lemma extract_limit_sublist C vs k :
  vs `sublist_of` k → extract_limit C vs `sublist_of` k.
Proof. apply when_sublist, without_instances_sublist. Qed.

Lemma validators_after_max_length_sublist model_field :
  validators_after_max_length model_field `sublist_of` validators model_field.
Proof. by apply when_sublist; [apply without_instances_sublist|]. Qed.

Lemma validators_after_min_length_sublist model_field :
  validators_after_min_length model_field `sublist_of` validators model_field.
Proof. apply extract_limit_sublist, validators_after_max_length_sublist. Qed.

Lemma validators_after_max_value_sublist model_field :
  validators_after_max_value model_field `sublist_of` validators model_field.
Proof. apply extract_limit_sublist, validators_after_min_length_sublist. Qed.

(** The list before the uniqueness injection. *)
Lemma remaining_validators_unfold model_field :
  remaining_validators model_field =
    when (unique model_field) (λ vs, vs ++ [unique_validator model_field])
      (when (isinstance (field_class model_field) SlugField)
         (List.filter (λ v, negb (is_validate_slug v)))
         (when (isinstance (field_class model_field) EmailField)
            (List.filter (λ v, negb (is_validate_email v)))
            (when (isinstance (field_class model_field) URLField)
               (without_instances URLValidator)
               (extract_limit MinValueValidator
                  (validators_after_max_value model_field))))).
Proof. reflexivity. Qed.

Lemma remaining_validators_split model_field :
  ∃ vs, vs `sublist_of` validators model_field ∧
        remaining_validators model_field =
          when (unique model_field)
            (λ vs, vs ++ [unique_validator model_field]) vs.
Proof.
  rewrite remaining_validators_unfold. eexists. split; [|done].
  do 3 (apply when_sublist; [apply filter_sublist|]).
  apply extract_limit_sublist, validators_after_max_value_sublist.
Qed.

Lemma get_field_kwargs_validators_Some field_name model_field vs :
  plain model_field →
  get_field_kwargs field_name model_field !! "validators"
    = Some (KValidators vs) →
  vs = remaining_validators model_field.
Proof.
  intros [Hro Hch]%plain_conds.
  rewrite get_field_kwargs_validators by done.
  destruct (list_truthy (remaining_validators model_field)); congruence.
Qed.

(** X13: filtering keeps the order and adds nothing: without [unique], the
    validators of the mapping are a sublist of the field's validators. *)
Theorem get_field_kwargs_validators_sublist field_name model_field vs :
  plain model_field →
  unique model_field = false →
  get_field_kwargs field_name model_field !! "validators"
    = Some (KValidators vs) →
  vs `sublist_of` validators model_field.
Proof.
  intros Hplain Huniq ->%get_field_kwargs_validators_Some; [|done].
  destruct (remaining_validators_split model_field) as (vs & Hsub & ->).
  by rewrite Huniq.
Qed.

(** X14: with [unique], the key is always there, and the list ends with one
    [UniqueValidator] over the default manager of the field's model, after
    a sublist of the field's validators. *)
Theorem get_field_kwargs_unique field_name model_field :
  plain model_field →
  unique model_field = true →
  ∃ vs,
    vs `sublist_of` validators model_field ∧
    get_field_kwargs field_name model_field !! "validators"
      = Some (KValidators
                (vs ++ [UniqueValidator
                          (_default_manager (model model_field))])).
Proof.
  intros Hplain Huniq. pose proof Hplain as [Hro Hch]%plain_conds.
  destruct (remaining_validators_split model_field) as (vs & Hsub & Heq).
  exists vs. split; [done|].
  rewrite get_field_kwargs_validators, Heq, Huniq by done.
  simpl. by destruct vs.
Qed.

Lemma next_limit_value_elem C vs :
  is_not_None (next_limit_value C vs) = true →
  ∃ cls, ValidatorInstance cls (next_limit_value C vs) ∈ vs ∧
         isinstance cls C = true.
Proof.
  induction vs as [|v vs IH]; [done|]. intros Hsome.
  assert (is_not_None (next_limit_value C vs) = true →
          ∃ cls, ValidatorInstance cls (next_limit_value C vs) ∈ v :: vs ∧
                 isinstance cls C = true) as Htail.
  { intros (cls & Hin & Hcls)%IH. exists cls. split; [by right|done]. }
  destruct v as [| |cls limit|]; simpl in *; try by apply Htail.
  destruct (isinstance cls C) eqn:Hcls; [|by apply Htail].
  exists cls. split; [by left|done].
Qed.

Lemma get_field_kwargs_bounds field_name model_field :
  plain model_field →
  let kwargs := get_field_kwargs field_name model_field in
  let bound C vs :=
    if is_not_None (next_limit_value C vs)
    then Some (KVal (next_limit_value C vs)) else None in
  kwargs !! "min_length" =
    bound MinLengthValidator (validators_after_max_length model_field) ∧
  kwargs !! "max_value" =
    bound MaxValueValidator (validators_after_min_length model_field) ∧
  kwargs !! "min_value" =
    bound MinValueValidator (validators_after_max_value model_field).
Proof.
  intros [Hro Hch]%plain_conds kwargs bound. subst kwargs bound.
  unfold get_field_kwargs. cbv zeta. rewrite Hro, Hch.
  by split_and!; kw_lookup.
Qed.

(** A property of validators that filtering out and the uniqueness
    injection keep. *)
Ltac kept_by_step :=
  let l' := fresh "l" in
  let Hl' := fresh "Hl" in
  intros l' Hl';
  first [ by apply filter_Forall
        | apply Forall_app; split; [done|by repeat constructor] ].

Lemma remaining_validators_extracted model_field C vs0 :
  (C, vs0) ∈ [(MinLengthValidator, validators_after_max_length model_field);
              (MaxValueValidator, validators_after_min_length model_field);
              (MinValueValidator, validators_after_max_value model_field)] →
  is_not_None (next_limit_value C vs0) = true →
  Forall (λ v, validator_isinstance v C = false)
    (remaining_validators model_field).
Proof.
  intros Hin Hsome. rewrite remaining_validators_unfold.
  do 4 (apply when_Forall; [kept_by_step|]).
  unfold validators_after_max_value, validators_after_min_length.
  repeat (apply elem_of_cons in Hin as [[= -> ->]|Hin]);
    [| | |by apply elem_of_nil in Hin].
  - do 2 (apply when_Forall; [kept_by_step|]).
    unfold extract_limit. rewrite Hsome. apply filter_Forall_negb.
  - do 1 (apply when_Forall; [kept_by_step|]).
    unfold extract_limit at 1.
    change (extract_limit MinLengthValidator
              (validators_after_max_length model_field))
      with (validators_after_min_length model_field).
    rewrite Hsome. apply filter_Forall_negb.
  - unfold extract_limit at 1.
    change (extract_limit MaxValueValidator
              (extract_limit MinLengthValidator
                 (validators_after_max_length model_field)))
      with (validators_after_max_value model_field).
    rewrite Hsome. apply filter_Forall_negb.
Qed.

(** X15: when ['min_length'], ['max_value'] or ['min_value'] is in the mapping,
    its value is the limit, other than [None], of a validator of the field
    that has the matching class, and no validator of that class is left
    under ['validators']. *)
Theorem get_field_kwargs_extracted_bound field_name model_field
    (key C : string) (x : kwval) :
  plain model_field →
  (key, C) ∈ extracted_bounds →
  get_field_kwargs field_name model_field !! key = Some x →
  ∃ cls limit,
    x = KVal limit ∧ limit ≠ PyNone ∧
    ValidatorInstance cls limit ∈ validators model_field ∧
    isinstance cls C = true ∧
    (∀ vs, get_field_kwargs field_name model_field !! "validators"
             = Some (KValidators vs) →
           Forall (λ v, validator_isinstance v C = false) vs).
Proof.
  intros Hplain Hin Hx.
  destruct (get_field_kwargs_bounds field_name model_field Hplain)
    as (Hmin & Hmax & Hminv).
  assert (∃ vs0,
            vs0 `sublist_of` validators model_field ∧
            (C, vs0) ∈
              [(MinLengthValidator, validators_after_max_length model_field);
               (MaxValueValidator, validators_after_min_length model_field);
               (MinValueValidator, validators_after_max_value model_field)] ∧
            is_not_None (next_limit_value C vs0) = true ∧
            x = KVal (next_limit_value C vs0))
    as (vs0 & Hsub & Hstage & Hsome & ->).
  { unfold extracted_bounds in Hin.
    repeat (apply elem_of_cons in Hin as [[= -> ->]|Hin]);
      [| | |by apply elem_of_nil in Hin].
    - rewrite Hmin in Hx. eexists. split;
        [apply validators_after_max_length_sublist|].
      split; [by left|].
      destruct (is_not_None _) eqn:Hs; [|done]. by injection Hx as <-.
    - rewrite Hmax in Hx. eexists. split;
        [apply validators_after_min_length_sublist|].
      split; [by right; left|].
      destruct (is_not_None _) eqn:Hs; [|done]. by injection Hx as <-.
    - rewrite Hminv in Hx. eexists. split;
        [apply validators_after_max_value_sublist|].
      split; [by right; right; left|].
      destruct (is_not_None _) eqn:Hs; [|done]. by injection Hx as <-. }
  destruct (next_limit_value_elem C vs0 Hsome) as (cls & Hcls_in & Hcls).
  exists cls, (next_limit_value C vs0). split_and!; [done| | |done|].
  - by apply is_not_None_spec.
  - by apply (sublist_subseteq _ _ Hsub).
  - intros vs ->%get_field_kwargs_validators_Some; [|done].
    by apply (remaining_validators_extracted model_field C vs0).
Qed.
Lemma filter_elem_of {B} (p : B → bool) (l : list B) (x : B) :
  p x = true → x ∈ l → x ∈ List.filter p l.
Proof.
  intros Hp Hx%list_elem_of_In. by apply list_elem_of_In, List.filter_In.
Qed.

Lemma when_elem_of {B} (c : bool) (f : list B → list B) (l : list B) (x : B) :
  (∀ l', x ∈ l' → x ∈ f l') → x ∈ l → x ∈ when c f l.
Proof. destruct c; simpl; auto. Qed.

Lemma remaining_validators_keeps model_field v :
  v ∈ validators model_field →
  is_not_None (max_length model_field)
  && isinstance (field_class model_field) CharField = false
  ∨ validator_isinstance v MaxLengthValidator = false →
  Forall (λ C, validator_isinstance v C = false)
    [MinLengthValidator; MaxValueValidator; MinValueValidator; URLValidator] →
  is_validate_email v = false →
  is_validate_slug v = false →
  v ∈ remaining_validators model_field.
Proof.
  intros Hv Hmaxl Hcls Hemail Hslug.
  apply Forall_cons in Hcls as [Hminl Hcls].
  apply Forall_cons in Hcls as [Hmaxv Hcls].
  apply Forall_cons in Hcls as [Hminv Hcls].
  apply Forall_cons in Hcls as [Hurl _].
  rewrite remaining_validators_unfold.
  unfold validators_after_max_value, validators_after_min_length,
    extract_limit, without_instances.
  do 7 (apply when_elem_of;
    [ intros l' Hl';
      first [ apply elem_of_app; by left
            | apply filter_elem_of; [|done];
              by rewrite ?Hminl, ?Hmaxv, ?Hminv, ?Hurl, ?Hemail, ?Hslug ] |]).
  unfold validators_after_max_length.
  destruct Hmaxl as [-> | Hmaxl]; [done|].
  apply when_elem_of; [|done]. intros l' Hl'.
  apply filter_elem_of; [|done]. by rewrite Hmaxl.
Qed.

Lemma get_field_kwargs_validators_elem field_name model_field v :
  plain model_field →
  v ∈ remaining_validators model_field →
  ∃ vs, get_field_kwargs field_name model_field !! "validators"
          = Some (KValidators vs) ∧ v ∈ vs.
Proof.
  intros [Hro Hch]%plain_conds Hin.
  exists (remaining_validators model_field). split; [|done].
  rewrite get_field_kwargs_validators by done.
  by destruct (remaining_validators model_field); [apply elem_of_nil in Hin|].
Qed.

(** X16: A validator that is of none of the extracted classes and is neither
    [validate_email] nor [validate_slug] is never dropped: it is under
    ['validators'] whenever the field has it. *)
Theorem get_field_kwargs_keeps_validator field_name model_field v :
  plain model_field →
  v ∈ validators model_field →
  Forall (λ C, validator_isinstance v C = false) extracted_classes →
  is_validate_email v = false →
  is_validate_slug v = false →
  ∃ vs, get_field_kwargs field_name model_field !! "validators"
          = Some (KValidators vs) ∧ v ∈ vs.
Proof.
  intros Hplain Hv Hcls Hemail Hslug.
  apply Forall_cons in Hcls as [Hmaxl Hcls].
  apply get_field_kwargs_validators_elem; [done|].
  apply remaining_validators_keeps; auto.
Qed.

(** X17: the validators the serializer field adds by itself are taken out: no
    [URLValidator] is left for a [URLField], [validate_email] is not left
    for an [EmailField], nor [validate_slug] for a [SlugField]. *)
Theorem get_field_kwargs_suppressed field_name model_field vs :
  plain model_field →
  get_field_kwargs field_name model_field !! "validators"
    = Some (KValidators vs) →
  (isinstance (field_class model_field) URLField = true →
   Forall (λ v, validator_isinstance v URLValidator = false) vs) ∧
  (isinstance (field_class model_field) EmailField = true →
   Forall (λ v, is_validate_email v = false) vs) ∧
  (isinstance (field_class model_field) SlugField = true →
   Forall (λ v, is_validate_slug v = false) vs).
Proof.
  intros Hplain ->%get_field_kwargs_validators_Some; [|done].
  rewrite remaining_validators_unfold. split_and!; intros ->.
  - do 3 (apply when_Forall; [kept_by_step|]). apply filter_Forall_negb.
  - do 2 (apply when_Forall; [kept_by_step|]).
    apply (filter_Forall_negb is_validate_email).
  - do 1 (apply when_Forall; [kept_by_step|]).
    apply (filter_Forall_negb is_validate_slug).
Qed.

(** X18: ['max_length'] is only passed on for a [CharField]: a field of another
    class gets no such key, whatever its [max_length], and keeps its
    [MaxLengthValidator]s among the validators. *)
Theorem get_field_kwargs_not_CharField field_name model_field :
  plain model_field →
  isinstance (field_class model_field) CharField = false →
  get_field_kwargs field_name model_field !! "max_length" = None ∧
  (∀ cls limit,
     ValidatorInstance cls limit ∈ validators model_field →
     Forall (λ C, isinstance cls C = false)
       [MinLengthValidator; MaxValueValidator; MinValueValidator;
        URLValidator] →
     ∃ vs, get_field_kwargs field_name model_field !! "validators"
             = Some (KValidators vs) ∧ ValidatorInstance cls limit ∈ vs).
Proof.
  intros Hplain Hchar. pose proof Hplain as [Hro Hch]%plain_conds. split.
  - by rewrite get_field_kwargs_max_length, Hchar, andb_false_r.
  - intros cls limit Hv Hcls.
    apply get_field_kwargs_validators_elem; [done|].
    apply remaining_validators_keeps; [done| |done..].
    left. by rewrite Hchar, andb_false_r.
Qed.
End ValidatorsMore.

(** ** get_relation_kwargs: every input, and the editable relation *)

Section RelationKwargsMore.
Context `{TextOps}.
Variable clean_manytomany_helptext : string → string.
Implicit Types (field_name : string) (model_field : ModelField).
Implicit Types (related_model : Model) (kwargs : gmap string kwval).

Ltac rel_lookup :=
  repeat first
    [ rewrite lookup_when_insert_ne by done
    | rewrite lookup_insert_ne by done
    | rewrite lookup_when_set_read_only
    | rewrite lookup_when_set_read_only_queryset
    | rewrite lookup_when_ne
        by (intros; first [ by apply lookup_set_read_only_ne
                          | by apply lookup_insert_ne ])
    | rewrite lookup_when_insert_eq
    | rewrite lookup_insert_eq
    | rewrite lookup_singleton_eq
    | rewrite lookup_singleton_ne by done
    | rewrite lookup_empty ].

(** X19: whatever the relation, the mapping has ['many'] (true) exactly for a
    to-many relation, and under ['view_name'] the name that
    [get_url_kwargs] gives for the related model, which is all that
    [get_url_kwargs] returns. *)
Theorem get_relation_kwargs_many_view_name field_name
    (model_field : option ModelField) related_model (many through : bool) :
  ∃ kwargs url_kwargs,
    get_relation_kwargs clean_manytomany_helptext field_name
      (model_field, related_model, many, through) = mret kwargs ∧
    get_url_kwargs related_model = mret url_kwargs ∧
    kwargs !! "many" = (if many then Some (KVal (PyBool true)) else None) ∧
    kwargs !! "view_name" = url_kwargs !! "view_name" ∧
    url_kwargs =
      {[ "view_name" :=
           KVal (PyStr (lower (object_name (_meta related_model))
                        +:+ "-detail")) ]}.
Proof.
  unfold get_relation_kwargs, get_url_kwargs.
  rewrite get_detail_view_name_returns. simpl. cbv zeta.
  destruct model_field as [f|];
    [destruct (get_truthy "read_only" _)|];
    (eexists _, _; split; [done|]; split; [done|]);
    by split_and!; rel_lookup.
Qed.

(** X20: with a model field, the label follows the rule of [get_field_kwargs],
    and the help text is the cleaned one, left out when cleaning empties
    it. *)
Theorem get_relation_kwargs_label_help_text field_name model_field
    related_model (many through : bool) :
  ∃ kwargs,
    get_relation_kwargs clean_manytomany_helptext field_name
      (Some model_field, related_model, many, through) = mret kwargs ∧
    kwargs !! "label" = get_field_kwargs field_name model_field !! "label" ∧
    kwargs !! "help_text" =
      (if str_truthy (clean_manytomany_helptext (help_text model_field))
       then Some (KVal (PyStr (clean_manytomany_helptext
                                 (help_text model_field))))
       else None).
Proof.
  unfold get_relation_kwargs.
  rewrite get_detail_view_name_returns, get_field_kwargs_label.
  simpl. cbv zeta.
  destruct (get_truthy "read_only" _);
    (eexists; split; [done|]); by split_and!; rel_lookup.
Qed.

(** X21: the editable relation without a through model keeps its ['queryset']
    and is not read-only; it is not required when it has a default or may
    be null (being blank plays no part here), allows null when it may be
    null, and passes the validators of the field on as they are, followed
    by a [UniqueValidator] when the field is unique. *)
Theorem get_relation_kwargs_editable field_name model_field related_model
    (many : bool) :
  editable model_field = true →
  ∃ kwargs,
    get_relation_kwargs clean_manytomany_helptext field_name
      (Some model_field, related_model, many, false) = mret kwargs ∧
    kwargs !! "queryset" = Some (KManager (_default_manager related_model)) ∧
    kwargs !! "read_only" = None ∧
    kwargs !! "required" =
      (if has_default model_field || null model_field
       then Some (KVal (PyBool false)) else None) ∧
    kwargs !! "allow_null" =
      (if null model_field then Some (KVal (PyBool true)) else None) ∧
    kwargs !! "validators" =
      (if unique model_field
       then Some (KValidators (validators model_field
                               ++ [unique_validator model_field]))
       else if list_truthy (validators model_field)
       then Some (KValidators (validators model_field))
       else None).
Proof.
  intros Hed. unfold get_relation_kwargs.
  rewrite get_detail_view_name_returns. simpl. cbv zeta. rewrite Hed.
  assert (∀ kw : gmap string kwval,
            kw !! "read_only" = None → get_truthy "read_only" kw = false)
    as Hfalsy.
  { intros kw Hkw. unfold get_truthy. by rewrite Hkw. }
  rewrite Hfalsy by (by rel_lookup).
  eexists. split; [done|]. split_and!; try by rel_lookup.
  unfold when at 1. destruct (unique model_field).
  - rewrite lookup_insert_eq. unfold get_validators. rel_lookup.
    by destruct (validators model_field).
  - by rel_lookup.
Qed.

(** X22: A relation through a model, given without its model field, gets the
    mapping of [get_nested_relation_kwargs] with the view name added. *)
Theorem get_relation_kwargs_through_nested related_model field_name
    (many : bool) :
  ∃ view_name,
    get_detail_view_name related_model = mret view_name ∧
    get_relation_kwargs clean_manytomany_helptext field_name
      (None, related_model, many, true)
    = mret (<["view_name" := KVal (PyStr view_name)]>
              (get_nested_relation_kwargs
                 (None, related_model, many, true))).
Proof.
  eexists. split; [apply get_detail_view_name_returns|].
  unfold get_relation_kwargs, get_nested_relation_kwargs.
  rewrite get_detail_view_name_returns. simpl. cbv zeta.
  f_equal. apply map_eq. intros k. unfold set_read_only.
  destruct many; simpl;
    repeat first
      [ rewrite lookup_delete | rewrite lookup_insert
      | rewrite lookup_singleton | rewrite lookup_empty ];
    repeat case_decide; by simplify_eq.
Qed.
Lemma same_but_label_refl kwargs : same_but_label kwargs kwargs.
Proof. by intros k _. Qed.

Lemma same_but_label_insert kwargs kwargs' (k : string) (x : kwval) :
  same_but_label kwargs kwargs' →
  same_but_label (<[k:=x]> kwargs) (<[k:=x]> kwargs').
Proof. intros Hsame k' Hk'. by apply lookup_insert_congr, Hsame. Qed.

Lemma same_but_label_when kwargs kwargs' (c : bool)
    (f : gmap string kwval → gmap string kwval) :
  (∀ m m', same_but_label m m' → same_but_label (f m) (f m')) →
  same_but_label kwargs kwargs' →
  same_but_label (when c f kwargs) (when c f kwargs').
Proof. intros Hf Hsame. destruct c; simpl; auto. Qed.

Lemma same_but_label_label kwargs kwargs' (c c' : bool) (x x' : kwval) :
  same_but_label kwargs kwargs' →
  same_but_label (when c <["label":=x]> kwargs)
                 (when c' <["label":=x']> kwargs').
Proof.
  intros Hsame k Hk. rewrite !lookup_when_insert_ne by done. by apply Hsame.
Qed.

Lemma same_but_label_set_read_only kwargs kwargs' :
  same_but_label kwargs kwargs' →
  same_but_label (set_read_only kwargs) (set_read_only kwargs').
Proof.
  intros Hsame k Hk. unfold set_read_only.
  rewrite !lookup_delete. case_decide; [done|].
  by apply lookup_insert_congr, Hsame.
Qed.

Lemma same_but_label_validators kwargs kwargs' (v : validator) :
  same_but_label kwargs kwargs' →
  same_but_label
    (<["validators" := KValidators (get_validators kwargs ++ [v])]> kwargs)
    (<["validators" := KValidators (get_validators kwargs' ++ [v])]> kwargs').
Proof.
  intros Hsame. unfold get_validators.
  rewrite (Hsame "validators") by done. by apply same_but_label_insert.
Qed.

Ltac same_but_label_steps :=
  repeat first
    [ apply same_but_label_label
    | apply same_but_label_insert
    | apply same_but_label_when;
      [ intros ? ? ?;
        first [ by apply same_but_label_insert
              | by apply same_but_label_set_read_only
              | by apply same_but_label_validators ] |]
    | apply same_but_label_refl ].

(** X23: the field name only decides the label: under two field names the
    relation gets mappings that agree on every other key. *)
Theorem get_relation_kwargs_field_name field_name field_name'
    (relation_info : RelationInfo) :
  ∃ kwargs kwargs',
    get_relation_kwargs clean_manytomany_helptext field_name relation_info
      = mret kwargs ∧
    get_relation_kwargs clean_manytomany_helptext field_name' relation_info
      = mret kwargs' ∧
    same_but_label kwargs kwargs'.
Proof.
  destruct relation_info as [[[model_field related_model] many] through].
  unfold get_relation_kwargs.
  rewrite get_detail_view_name_returns. simpl. cbv zeta.
  destruct model_field as [f|];
    [|eexists _, _; split_and!; [done..|apply same_but_label_refl]].
  match goal with
  | |- ∃ kw kw', (if get_truthy _ ?A then _ else _) = _ ∧
                 (if get_truthy _ ?A' then _ else _) = _ ∧ _ =>
      assert (same_but_label A A') as Hsame by same_but_label_steps;
      assert (get_truthy "read_only" A = get_truthy "read_only" A') as <-
        by (unfold get_truthy; by rewrite (Hsame "read_only"));
      destruct (get_truthy "read_only" A)
  end.
  - by eexists _, _.
  - eexists _, _. split_and!; [done..|]. same_but_label_steps.
Qed.
Lemma dom_when_within (kwargs : gmap string kwval) (c : bool)
    (f : gmap string kwval → gmap string kwval) (X : gset string) :
  (∀ m, dom m ⊆ X → dom (f m) ⊆ X) → dom kwargs ⊆ X →
  dom (when c f kwargs) ⊆ X.
Proof. intros Hf Hm. destruct c; simpl; auto. Qed.

Lemma dom_set_read_only_within (kwargs : gmap string kwval)
    (X : gset string) :
  "read_only" ∈ X → dom kwargs ⊆ X → dom (set_read_only kwargs) ⊆ X.
Proof.
  intros Hro Hm. unfold set_read_only. rewrite dom_delete_L.
  trans (dom (<["read_only" := KVal (PyBool true)]> kwargs));
    [apply subseteq_difference_l; done|by apply dom_insert_within].
Qed.

(** X24: whatever the relation, the keys of the mapping are among the nine the
    function knows. *)
Theorem get_relation_kwargs_keys field_name (relation_info : RelationInfo) :
  ∃ kwargs,
    get_relation_kwargs clean_manytomany_helptext field_name relation_info
      = mret kwargs ∧
    dom kwargs ⊆
      {[ "queryset"; "view_name"; "many"; "read_only"; "label"; "help_text";
         "required"; "allow_null"; "validators" ]}.
Proof.
  destruct relation_info as [[[model_field related_model] many] through].
  unfold get_relation_kwargs.
  rewrite get_detail_view_name_returns. simpl. cbv zeta.
  destruct model_field as [f|]; [destruct (get_truthy "read_only" _)|].
  all: eexists; split; [done|].
  all: repeat first
         [ apply dom_insert_within; [set_solver|]
         | apply dom_when_insert_within; [set_solver|]
         | apply dom_when_within;
           [ intros ? ?;
             first [ apply dom_set_read_only_within; [set_solver|done]
                   | apply dom_insert_within; [set_solver|done] ] |] ].
  all: set_solver.
Qed.
End RelationKwargsMore.

(** ** The further properties at the sample inputs *)

Section FurtherSampleRuns.
#[local] Existing Instance ascii_text.

(** The ASCII operations are, trivially, the ASCII ones on ASCII text. *)
Lemma ascii_text_case : AsciiCase ascii_text.
Proof. by split. Qed.

#[local] Existing Instance ascii_text_case.

Example get_field_kwargs_code_keys :
  dom (get_field_kwargs "code" code_field)
    = {[ "model_field"; "max_length"; "min_length"; "validators" ]}.
Proof. by vm_compute. Qed.

Example get_field_kwargs_code_validators :
  get_field_kwargs "code" code_field !! "validators"
    = Some (KValidators [RegexValidator_of "^[A-Z]"]).
Proof. by vm_compute. Qed.

Example get_field_kwargs_manual_validators :
  get_field_kwargs "manual" manual_field !! "validators"
    = Some (KValidators [MaxLengthValidator_of 100]).
Proof. by vm_compute. Qed.

Example get_relation_kwargs_category_keys :
  ∃ kwargs,
    get_relation_kwargs (λ text, text) "category"
      (Some category_field, Category, false, false) = mret kwargs ∧
    dom kwargs = {[ "queryset"; "view_name"; "required"; "allow_null" ]}.
Proof. eexists. split; [reflexivity|]. by vm_compute. Qed.

Lemma plain_code_field : plain code_field.
Proof. by repeat split. Qed.

Lemma getitem_unregistered_names_last_class_witness :
  getitem field_table manager_key =
    raise (KeyError ["Class %s not found in lookup."; "object"]).
Proof.
  apply (getitem_unregistered_names_last_class field_table manager_key).
  vm_compute. repeat constructor.
Defined.

Lemma getitem_agree_on_mro_witness :
  getitem field_table slug_key =
  getitem {| mapping := <["Manager" := "managers"]> (mapping field_table) |}
    slug_key.
Proof.
  apply getitem_agree_on_mro. vm_compute. repeat constructor.
Defined.

(** A key of a class with two bases, of which only the second is
    registered: the lookup finds it, while a key of the first base finds
    nothing. *)
Example getitem_two_bases :
  let mixin := PyClass "Mixin" ["object"] in
  let dated := PyClass "DatedField" ["Mixin"; "Field"; "object"] in
  getitem field_table {| ob_class := dated; ob_proxy_class := None |}
    = mret "serializers.ModelField" ∧
  getitem field_table {| ob_class := mixin; ob_proxy_class := None |}
    = raise (KeyError ["Class %s not found in lookup."; "object"]).
Proof. by split. Qed.

Lemma getitem_inherits_witness :
  unregistered field_table SlugField ∧
  cls_ancestors SlugField_class = getmro CharField_class ∧
  getitem field_table slug_key =
  getitem field_table {| ob_class := CharField_class;
                         ob_proxy_class := None |}.
Proof.
  split; [reflexivity|]. split; [reflexivity|].
  apply (getitem_inherits field_table slug_key
           {| ob_class := CharField_class; ob_proxy_class := None |});
    reflexivity.
Defined.

Lemma needs_label_default_verbose_name_witness :
  is_ascii "in_stock" = true ∧
  verbose_name in_stock_field = replace "_" " " "in_stock" ∧
  needs_label in_stock_field "in_stock" = false.
Proof.
  split; [reflexivity|]. split; [reflexivity|].
  apply (needs_label_default_verbose_name in_stock_field "in_stock");
    reflexivity.
Defined.

Lemma get_field_kwargs_no_label_witness :
  is_ascii "in_stock" = true ∧
  lower "in_stock" = "in_stock" ∧
  get_field_kwargs "in_stock" in_stock_field !! "label" = None.
Proof.
  split; [reflexivity|]. split; [reflexivity|].
  apply (get_field_kwargs_no_label "in_stock" in_stock_field); reflexivity.
Defined.

Lemma get_field_kwargs_flags_witness :
  get_field_kwargs "in_stock" in_stock_field !! "allow_blank"
    = Some (KVal (PyBool true)).
Proof.
  apply (get_field_kwargs_flags "in_stock" in_stock_field); reflexivity.
Defined.

Lemma get_field_kwargs_field_name_witness :
  get_field_kwargs "title" title_field !! "validators"
    = get_field_kwargs "Title_of_Product" title_field !! "validators".
Proof.
  apply (get_field_kwargs_field_name "title" "Title_of_Product" title_field).
  discriminate.
Defined.

Lemma get_field_kwargs_validators_sublist_witness :
  [RegexValidator_of "^[A-Z]"] `sublist_of` validators code_field.
Proof.
  apply (get_field_kwargs_validators_sublist "code" code_field).
  - exact plain_code_field.
  - reflexivity.
  - by vm_compute.
Defined.

Lemma get_field_kwargs_unique_witness :
  ∃ vs,
    vs `sublist_of` validators title_field ∧
    get_field_kwargs "title" title_field !! "validators"
      = Some (KValidators (vs ++ [UniqueValidator (_default_manager Product)])).
Proof.
  apply (get_field_kwargs_unique "title" title_field).
  - by repeat split.
  - reflexivity.
Defined.

Lemma get_field_kwargs_extracted_bound_witness :
  ∃ cls limit,
    KVal (PyInt 3) = KVal limit ∧ limit ≠ PyNone ∧
    ValidatorInstance cls limit ∈ validators code_field ∧
    isinstance cls MinLengthValidator = true ∧
    (∀ vs, get_field_kwargs "code" code_field !! "validators"
             = Some (KValidators vs) →
           Forall (λ v, validator_isinstance v MinLengthValidator = false) vs).
Proof.
  apply (get_field_kwargs_extracted_bound "code" code_field "min_length").
  - exact plain_code_field.
  - left.
  - by vm_compute.
Defined.

Lemma get_field_kwargs_keeps_validator_witness :
  ∃ vs, get_field_kwargs "code" code_field !! "validators"
          = Some (KValidators vs) ∧ RegexValidator_of "^[A-Z]" ∈ vs.
Proof.
  apply (get_field_kwargs_keeps_validator "code" code_field).
  - exact plain_code_field.
  - right. left.
  - vm_compute. repeat constructor.
  - reflexivity.
  - reflexivity.
Defined.

Lemma get_field_kwargs_suppressed_witness :
  isinstance (field_class code_field) SlugField = true ∧
  Forall (λ v, is_validate_slug v = false) [RegexValidator_of "^[A-Z]"].
Proof.
  split; [reflexivity|].
  apply (get_field_kwargs_suppressed "code" code_field).
  - exact plain_code_field.
  - by vm_compute.
  - reflexivity.
Defined.

Lemma get_field_kwargs_not_CharField_witness :
  isinstance (field_class manual_field) CharField = false ∧
  get_field_kwargs "manual" manual_field !! "max_length" = None.
Proof.
  split; [reflexivity|].
  apply (get_field_kwargs_not_CharField "manual" manual_field).
  - by repeat split.
  - reflexivity.
Defined.

Lemma get_relation_kwargs_editable_witness :
  ∃ kwargs,
    get_relation_kwargs (λ text, text) "category"
      (Some category_field, Category, false, false) = mret kwargs ∧
    kwargs !! "queryset" = Some (KManager (_default_manager Category)) ∧
    kwargs !! "read_only" = None.
Proof.
  destruct (get_relation_kwargs_editable (λ text, text) "category"
              category_field Category false eq_refl)
    as (kwargs & Heq & Hqs & Hro & _).
  exists kwargs. exact (conj Heq (conj Hqs Hro)).
Defined.
End FurtherSampleRuns.
